(** * Cart state synchronisation of the theme's storefront scripts

    A shallow embedding of the three scripts that talk to the platform's
    cart endpoints:

    - [CartSystem]  (cart system script: [updateLineItem], [removeLineItem],
      [handleCartUpdate], [dispatchCartUpdatedEvent]),
    - [CartDrawer]  (assets/cart-drawer.js: the debounced quantity and note
      handlers, [updateCartItem], [updateCart], [loadCartData]),
    - [cartUtils]   (cart utilities script: [addToCart], [updateCartItem],
      [removeFromCart], [updateCartNote], [getCartData], [clearCartCache],
      [getCart], [updateCartCount]).

    The scripts are asynchronous JavaScript running on one event loop.  Every
    [async] function is cut at its suspension point: the part before the
    [await fetch(...)] is a computation that registers a request together
    with a continuation tag, and the part after it is the continuation run
    when the host delivers the response.  [fetch] and the following
    [response.json()] are delivered as one response.  DOM painting
    (text of badges, progress bars, innerHTML) is not modelled; what is kept
    of the page is what the scripts read back or what other scripts observe:
    the quantity inputs, the dispatched [CustomEvent]s, the toasts, the
    console, the timers and the network.

    A step of the page is the call of one handler or operation, the
    delivery of one response, or the passing of time.  Which DOM event
    reaches which handler is decided by the markup: for the quantity inputs
    of the drawer that markup is written by [CartDrawer.renderCartItem],
    and one [change] event reaches [CartDrawer] and [CartSystem] both
    ([drawer_input_change]); the rest of the markup belongs to the theme's
    templates.  The [cart:updated] listeners, which the scripts register
    themselves, are run by [dispatchEvent].  [CartSystem.refreshCart]
    is left out: it is bound to [cart:refresh], an event no script
    dispatches.  OK responses carry a cart document, as the endpoints'
    contract has it.

    Beside the event loop stand the parts of the scripts that keep a state
    of their own: the postal code field and the shipping calculator of
    [CartSystem], and from [productUtils] the quantity selector, the list of
    recently viewed products, the gallery index and the variant lookup.
    They are embedded as functions on that state. *)

From stdpp Require Import base list strings pretty.
From Stdlib Require Import ZArith Lia Ascii.

Local Open Scope Z_scope.

(** ** Data on the wire *)

(** [variantId] is documented as [string|number]; a caller may also omit it. *)
Inductive VariantId :=
| VidUndefined
| VidNum (n : Z)
| VidStr (s : string).

(** JavaScript truthiness of a variant id, as tested by [!variantId]. *)
Definition truthy_vid (v : VariantId) : bool :=
  match v with
  | VidUndefined => false
  | VidNum n => negb (n =? 0)
  | VidStr s => negb (String.eqb s "")
  end.

Record LineItem := {
  item_id : Z;
  quantity : Z;
  line_price : Z
}.

(** The cart document the endpoints answer with. *)
Record Cart := {
  item_count : Z;
  total_price : Z;
  items : list LineItem;
  note : string
}.

Inductive Endpoint :=
| CartJs            (* GET  /cart.js *)
| CartAddJs         (* POST /cart/add.js *)
| CartChangeJs      (* POST /cart/change.js *)
| CartUpdateJs      (* POST /cart/update.js *)
| SectionCartDrawer (* GET  /?section_id=cart-drawer *).

(** Request bodies, as built by [JSON.stringify].  A quantity that is [NaN]
    (from [parseInt]) is serialised as [null]: [None]. *)
Inductive Body :=
| NoBody
| ChangeBody (line : Z) (qty : option Z)
| AddBody (id : VariantId) (qty : Z) (selling_plan : option Z)
          (properties : option (list (string * string)))
| AddItemsBody (entries : list (VariantId * Z))
| NoteBody (text : string).

Record Request := {
  endpoint : Endpoint;
  body : Body
}.

(** The three cart mutation endpoints. *)
Definition is_mutation (r : Request) : bool :=
  match endpoint r with
  | CartAddJs | CartChangeJs | CartUpdateJs => true
  | CartJs | SectionCartDrawer => false
  end.

(** What [response.json()] gives for an OK response. *)
Inductive Parsed :=
| Json (data : Cart)
| Malformed (msg : string) (* json() rejects with a SyntaxError *).

(** One delivered response. *)
Inductive Response :=
| NetworkFailure (msg : string)        (* fetch() rejects *)
| HttpOk (payload : Parsed)            (* response.ok *)
| HttpError (status : Z) (msg : option string)
    (* !response.ok; [msg] is the [message] field of the JSON error
       document when the body parses and the field is truthy *).

(** ** Exceptions and results *)

Record JsError := { message : string }.

Inductive Completion (A : Type) :=
| Normal (a : A)
| Throw (e : JsError).
Arguments Normal {A} a.
Arguments Throw {A} e.

(** The result objects of the cart utilities:
    [{success: true, data}] and [{success: false, error}]. *)
Inductive Result :=
| Success (data : Cart)
| Failure (error : string).

(** Values a modelled function returns. *)
Inductive Value :=
| VUndefined
| VResult (r : Result)
| VCart (c : option Cart) (* a cart document or [null] *).

(** An [async] function either returns or is suspended on a request. *)
Inductive Outcome :=
| Awaiting
| Returned (v : Value).

(** ** The page *)

(** [document.dispatchEvent(new CustomEvent(name, {detail}))]. *)
Inductive CartEvent :=
| EvUpdated (detail_item_count : option Z) (detail_cart : option Cart)
| EvItemAdded (item : Cart) (qty : Z)
| EvItemsAdded (added : list LineItem)
| EvError (error : string)
| EvNoteUpdated (text : string).

(** A quantity input: [dataset.line] and [value]; [None] is a text that
    [parseInt] maps to [NaN]. *)
Record InputEl := {
  dataset_line : Z;
  value : option Z
}.

(** The two callers of [CartDrawer.updateCart]. *)
Inductive DrawerCaller :=
| FromUpdateCartItem
| FromUpsellAdd.

(** Who is waiting for a response. *)
Inductive Cont :=
| K_CS_updateLineItem (input : nat) (line : Z)
| K_CS_removeLineItem
| K_CS_reloadMiniCartSection
| K_CD_init
| K_CD_updateCartItem
| K_CD_updateCart (caller : DrawerCaller)
| K_CD_upsellAdd
| K_CD_noteChange
| K_CU_addToCart (qty : Z)
| K_CU_addMultipleToCart
| K_CU_updateCartItem
| K_CU_removeFromCart
| K_CU_updateCartNote (text : string)
| K_CU_getCartData
| K_CU_updateCartCount.

Record Pending := {
  rid : nat;
  req : Request;
  cont : Cont
}.

(** The callbacks handed to [setTimeout]. *)
Inductive TimerTask :=
| TaskUpdateCartItem (line : Z) (qty : Z)
| TaskSaveNote (text : string).

Record Timer := {
  tid : nat;
  due : Z;
  task : TimerTask
}.

(** The modelled entry points, for the log of settled promises. *)
Inductive Op :=
| OpCS_updateLineItem | OpCS_removeLineItem | OpCS_reloadMiniCartSection
| OpCD_updateCartItem | OpCD_handleUpsellAdd | OpCD_init | OpCD_noteChange
| OpCU_addToCart | OpCU_addMultipleToCart
| OpCU_updateCartItem | OpCU_removeFromCart
| OpCU_updateCartNote | OpCU_getCartData | OpCU_updateCartCount.

Record Toast := {
  toast_message : string;
  toast_type : string
}.

(** The host: clock, network, timers, and what the page shows. *)
Record Host := {
  now : Z;                       (* Date.now() *)
  fresh : nat;                   (* next request or timer id *)
  inflight : list Pending;       (* requests awaiting their response *)
  sent : list Request;           (* every request issued so far, oldest first *)
  timers : list Timer;           (* armed timers, oldest first *)
  events : list CartEvent;       (* dispatched events, oldest first *)
  toasts : list Toast;           (* CartSystem.showNotification / CartDrawer.showError *)
  console : list string;         (* console.error: the logged error messages *)
  settled : list (Op * Completion Value);
  inputs : list InputEl;         (* quantity inputs, addressed by position *)
  dom_mini_cart : bool           (* #mini-cart with its .drawer__content exists *)
}.

Record CartSystem := {
  cart : option Cart;
  isUpdating : bool
}.

Record CartDrawer := {
  isLoading : bool;
  cartData : option Cart;
  debounceTimer : option nat
}.

Record CartUtils := {
  cartCache : option (Cart * Z)  (* { data, timestamp } or null *)
}.

Record World := {
  host : Host;
  cartSystem : CartSystem;
  cartDrawer : CartDrawer;
  cartUtils : CartUtils
}.

(** ** Field updates *)

Definition with_host (f : Host → Host) (w : World) : World :=
  {| host := f (host w); cartSystem := cartSystem w;
     cartDrawer := cartDrawer w; cartUtils := cartUtils w |}.

Definition with_cartSystem (f : CartSystem → CartSystem) (w : World) : World :=
  {| host := host w; cartSystem := f (cartSystem w);
     cartDrawer := cartDrawer w; cartUtils := cartUtils w |}.

Definition with_cartDrawer (f : CartDrawer → CartDrawer) (w : World) : World :=
  {| host := host w; cartSystem := cartSystem w;
     cartDrawer := f (cartDrawer w); cartUtils := cartUtils w |}.

Definition with_cartUtils (f : CartUtils → CartUtils) (w : World) : World :=
  {| host := host w; cartSystem := cartSystem w;
     cartDrawer := cartDrawer w; cartUtils := f (cartUtils w) |}.

Definition host_issue (p : Pending) (h : Host) : Host :=
  {| now := now h; fresh := S (fresh h);
     inflight := inflight h ++ [p]; sent := sent h ++ [req p];
     timers := timers h; events := events h; toasts := toasts h;
     console := console h; settled := settled h; inputs := inputs h;
     dom_mini_cart := dom_mini_cart h |}.

Definition host_set_inflight (l : list Pending) (h : Host) : Host :=
  {| now := now h; fresh := fresh h; inflight := l; sent := sent h;
     timers := timers h; events := events h; toasts := toasts h;
     console := console h; settled := settled h; inputs := inputs h;
     dom_mini_cart := dom_mini_cart h |}.

Definition host_set_timers (fr : nat) (l : list Timer) (h : Host) : Host :=
  {| now := now h; fresh := fr; inflight := inflight h; sent := sent h;
     timers := l; events := events h; toasts := toasts h;
     console := console h; settled := settled h; inputs := inputs h;
     dom_mini_cart := dom_mini_cart h |}.

Definition host_set_now (t : Z) (h : Host) : Host :=
  {| now := t; fresh := fresh h; inflight := inflight h; sent := sent h;
     timers := timers h; events := events h; toasts := toasts h;
     console := console h; settled := settled h; inputs := inputs h;
     dom_mini_cart := dom_mini_cart h |}.

Definition host_log_event (e : CartEvent) (h : Host) : Host :=
  {| now := now h; fresh := fresh h; inflight := inflight h; sent := sent h;
     timers := timers h; events := events h ++ [e]; toasts := toasts h;
     console := console h; settled := settled h; inputs := inputs h;
     dom_mini_cart := dom_mini_cart h |}.

Definition host_toast (t : Toast) (h : Host) : Host :=
  {| now := now h; fresh := fresh h; inflight := inflight h; sent := sent h;
     timers := timers h; events := events h; toasts := toasts h ++ [t];
     console := console h; settled := settled h; inputs := inputs h;
     dom_mini_cart := dom_mini_cart h |}.

Definition host_console (s : string) (h : Host) : Host :=
  {| now := now h; fresh := fresh h; inflight := inflight h; sent := sent h;
     timers := timers h; events := events h; toasts := toasts h;
     console := console h ++ [s]; settled := settled h; inputs := inputs h;
     dom_mini_cart := dom_mini_cart h |}.

Definition host_settle (o : Op) (c : Completion Value) (h : Host) : Host :=
  {| now := now h; fresh := fresh h; inflight := inflight h; sent := sent h;
     timers := timers h; events := events h; toasts := toasts h;
     console := console h; settled := settled h ++ [(o, c)]; inputs := inputs h;
     dom_mini_cart := dom_mini_cart h |}.

Definition host_set_inputs (l : list InputEl) (h : Host) : Host :=
  {| now := now h; fresh := fresh h; inflight := inflight h; sent := sent h;
     timers := timers h; events := events h; toasts := toasts h;
     console := console h; settled := settled h; inputs := l;
     dom_mini_cart := dom_mini_cart h |}.

(** ** The monad of the scripts: state of the page, and exceptions *)

Definition M (A : Type) : Type := World → Completion A * World.

Definition ret {A} (a : A) : M A := λ w, (Normal a, w).

Definition bind {A B} (m : M A) (k : A → M B) : M B :=
  λ w, match m w with
       | (Normal a, w') => k a w'
       | (Throw e, w') => (Throw e, w')
       end.

Definition throw {A} (e : JsError) : M A := λ w, (Throw e, w).

(** [try { body } catch (error) { handler }] *)
Definition try_catch {A} (body : M A) (handler : JsError → M A) : M A :=
  λ w, match body w with
       | (Normal a, w') => (Normal a, w')
       | (Throw e, w') => handler e w'
       end.

(** [try { body } finally { fin }] *)
Definition try_finally {A} (body : M A) (fin : M unit) : M A :=
  λ w, match body w with
       | (c, w') =>
           match fin w' with
           | (Normal _, w'') => (c, w'')
           | (Throw e, w'') => (Throw e, w'')
           end
       end.

Definition gets {A} (f : World → A) : M A := λ w, (Normal (f w), w).
Definition modify (f : World → World) : M unit := λ w, (Normal tt, f w).

#[global] Instance M_ret : MRet M := @ret.
#[global] Instance M_bind : MBind M := λ A B k m, bind m k.

(** ** Host primitives *)

(** [await fetch(url, init)]: the request goes out and the caller is
    suspended; [k] names the code that runs on the response. *)
Definition fetch (e : Endpoint) (b : Body) (k : Cont) : M Outcome :=
  modify (with_host (λ h,
    host_issue {| rid := fresh h; req := {| endpoint := e; body := b |};
                  cont := k |} h)) ;;
  mret Awaiting.

(** [console.error(label, error)] *)
Definition console_error (label : string) (error : JsError) : M unit :=
  modify (with_host (host_console (label +:+ " " +:+ message error))).

(** [clearTimeout(id)]; [null] and unknown ids are ignored. *)
Definition clearTimeout (id : option nat) : M unit :=
  match id with
  | None => mret tt
  | Some i =>
      modify (with_host (λ h,
        host_set_timers (fresh h)
          (List.filter (λ t, negb (tid t =? i)%nat) (timers h)) h))
  end.

(** [setTimeout(callback, delay)] returns the id of the new timer. *)
Definition setTimeout (callback : TimerTask) (delay : Z) : M nat :=
  id ← gets (fresh ∘ host);
  modify (with_host (λ h,
    host_set_timers (S (fresh h))
      (timers h ++ [{| tid := fresh h; due := now h + delay;
                       task := callback |}]) h)) ;;
  mret id.

(** [a[i]] for a number [i]: [undefined] outside the array. *)
Definition js_index {A} (l : list A) (i : Z) : option A :=
  if i <? 0 then None else l !! Z.to_nat i.

(** [x || d] for a number (or [undefined] / [NaN]) [x]. *)
Definition js_or (x : option Z) (d : Z) : Z :=
  match x with
  | Some n => if n =? 0 then d else n
  | None => d
  end.

(** A listener that throws does not stop the dispatch: the host reports
    the exception and goes on with the next listener. *)
Definition swallow (listener : M unit) : M unit :=
  try_catch listener (λ _, mret tt).

Definition null_deref (prop : string) : JsError :=
  {| message := "Cannot read properties of null (reading '" +:+ prop +:+ "')" |}.

Definition http_error (status : Z) : JsError :=
  {| message := "HTTP error! status: " +:+ pretty status |}.

(** ** Listeners of [cart:updated] *)

(** [cartUtils.getCart], after the response. *)
Definition cartUtils_getCart_resume (r : Response) : M (option Cart) :=
  try_catch
    (match r with
     | NetworkFailure m => throw {| message := m |}
     | HttpError status _ => throw (http_error status)
     | HttpOk (Json data) => mret (Some data)
     | HttpOk (Malformed m) => throw {| message := m |}
     end)
    (λ error, console_error "Get cart error:" error ;; mret None).

(** [cartUtils.updateCartCount]: [this.getCart().then(...)], not awaited. *)
Definition cartUtils_updateCartCount : M unit :=
  fetch CartJs NoBody K_CU_updateCartCount ;; mret tt.

Definition CartSystem_set_cart (c : option Cart) : M unit :=
  modify (with_cartSystem (λ s, {| cart := c; isUpdating := isUpdating s |})).

Definition CartSystem_set_isUpdating (b : bool) : M unit :=
  modify (with_cartSystem (λ s, {| cart := cart s; isUpdating := b |})).

Definition CartSystem_reloadMiniCartSection : M unit :=
  fetch SectionCartDrawer NoBody K_CS_reloadMiniCartSection ;; mret tt.

(** [CartSystem.reloadMiniCartSection], from the response on: the fetched
    markup replaces the mini cart. *)
Definition CartSystem_reloadMiniCartSection_resume (r : Response)
    : M Outcome :=
  try_catch
    (match r with
     | NetworkFailure m => throw {| message := m |}
     | _ => mret (Returned VUndefined)
     end)
    (λ error,
       console_error "Error reloading mini-cart:" error ;;
       mret (Returned VUndefined)).

(** [CartSystem.updateMiniCart]: reads [this.cart.item_count] once the
    mini cart is on the page. *)
Definition CartSystem_updateMiniCart : M unit :=
  mini ← gets (dom_mini_cart ∘ host);
  if negb mini then mret tt else
  c ← gets (cart ∘ cartSystem);
  match c with
  | None => throw (null_deref "item_count")
  | Some c =>
      if item_count c =? 0 then mret tt
      else CartSystem_reloadMiniCartSection
  end.

Definition CartSystem_updateCartUI : M unit := CartSystem_updateMiniCart.

(** [CartSystem.handleCartUpdate(cart)]; [updateFreeShippingBar] only paints. *)
Definition CartSystem_handleCartUpdate (c : option Cart) : M unit :=
  CartSystem_set_cart c ;;
  CartSystem_updateCartUI.

(** [document.dispatchEvent]: the event is logged and the registered
    listeners run synchronously.  Only [cart:updated] has listeners with an
    effect on the modelled state: [CartSystem.bindEvents] registers
    [handleCartUpdate(event.detail.cart)], and [cartUtils.init] registers
    [updateCartCount()]. *)
Definition dispatchEvent (ev : CartEvent) : M unit :=
  modify (with_host (host_log_event ev)) ;;
  match ev with
  | EvUpdated _ c =>
      swallow (CartSystem_handleCartUpdate c) ;;
      swallow cartUtils_updateCartCount
  | _ => mret tt
  end.

(** The callback of [updateCartCount], run on the response of [getCart]. *)
Definition cartUtils_updateCartCount_resume (r : Response) : M Outcome :=
  c ← cartUtils_getCart_resume r;
  match c with
  | Some c =>
      dispatchEvent (EvUpdated (Some (item_count c)) (Some c)) ;;
      mret (Returned VUndefined)
  | None => mret (Returned VUndefined)
  end.

(** ** CartSystem *)

Definition CartSystem_showNotification (msg type : string) : M unit :=
  modify (with_host (host_toast {| toast_message := msg; toast_type := type |})).

Definition CartSystem_dispatchCartUpdatedEvent : M unit :=
  c ← gets (cart ∘ cartSystem);
  dispatchEvent (EvUpdated None c).

(** [input.value = n] *)
Definition set_input_value (input : nat) (n : Z) : M unit :=
  modify (with_host (λ h,
    host_set_inputs
      (alter (λ el, {| dataset_line := dataset_line el; value := Some n |})
             input (inputs h)) h)).

(** [CartSystem.updateLineItem(input)], up to the [await fetch]. *)
Definition CartSystem_updateLineItem (input : nat) : M Outcome :=
  busy ← gets (isUpdating ∘ cartSystem);
  if busy : bool then mret (Returned VUndefined) else
  CartSystem_set_isUpdating true ;;
  el ← gets (λ w, inputs (host w) !! input);
  match el with
  | None => throw (null_deref "dataset")
  | Some el =>
      fetch CartChangeJs (ChangeBody (dataset_line el) (value el))
            (K_CS_updateLineItem input (dataset_line el))
  end.

(** [CartSystem.updateLineItem], from the response on. *)
Definition CartSystem_updateLineItem_resume (input : nat) (line : Z)
    (r : Response) : M Outcome :=
  try_finally
    (try_catch
       (match r with
        | NetworkFailure m => throw {| message := m |}
        | HttpOk (Json data) =>
            CartSystem_set_cart (Some data) ;;
            CartSystem_updateCartUI ;;
            CartSystem_dispatchCartUpdatedEvent ;;
            CartSystem_showNotification "Carrinho atualizado" "success"
        | HttpOk (Malformed m) => throw {| message := m |}
        | HttpError _ _ => throw {| message := "Failed to update cart" |}
        end)
       (λ error,
          console_error "Error updating line item:" error ;;
          CartSystem_showNotification "Erro ao atualizar item" "error" ;;
          c ← gets (cart ∘ cartSystem);
          match c with
          | None => throw (null_deref "items")
          | Some c =>
              set_input_value input
                (js_or (quantity <$> js_index (items c) (line - 1)) 1)
          end))
    (CartSystem_set_isUpdating false) ;;
  mret (Returned VUndefined).

(** [CartSystem.removeLineItem(button)], up to the [await fetch];
    [line] is [button.dataset.line]. *)
Definition CartSystem_removeLineItem (line : Z) : M Outcome :=
  busy ← gets (isUpdating ∘ cartSystem);
  if busy : bool then mret (Returned VUndefined) else
  CartSystem_set_isUpdating true ;;
  fetch CartChangeJs (ChangeBody line (Some 0)) K_CS_removeLineItem.

Definition CartSystem_removeLineItem_resume (r : Response) : M Outcome :=
  try_finally
    (try_catch
       (match r with
        | NetworkFailure m => throw {| message := m |}
        | HttpOk (Json data) =>
            CartSystem_set_cart (Some data) ;;
            CartSystem_updateCartUI ;;
            CartSystem_dispatchCartUpdatedEvent ;;
            CartSystem_showNotification "Item removido do carrinho" "success"
        | HttpOk (Malformed m) => throw {| message := m |}
        | HttpError _ _ => throw {| message := "Failed to remove item" |}
        end)
       (λ error,
          console_error "Error removing line item:" error ;;
          CartSystem_showNotification "Erro ao remover item" "error"))
    (CartSystem_set_isUpdating false) ;;
  mret (Returned VUndefined).

(** ** CartDrawer *)

Definition CartDrawer_set_isLoading (b : bool) : M unit :=
  modify (with_cartDrawer (λ d,
    {| isLoading := b; cartData := cartData d;
       debounceTimer := debounceTimer d |})).

Definition CartDrawer_set_cartData (c : option Cart) : M unit :=
  modify (with_cartDrawer (λ d,
    {| isLoading := isLoading d; cartData := c;
       debounceTimer := debounceTimer d |})).

Definition CartDrawer_set_debounceTimer (t : option nat) : M unit :=
  modify (with_cartDrawer (λ d,
    {| isLoading := isLoading d; cartData := cartData d;
       debounceTimer := t |})).

Definition CartDrawer_showError (msg : string) : M unit :=
  modify (with_host (host_toast
    {| toast_message := msg; toast_type := "cart-drawer__error" |})).

(** [CartDrawer.loadCartData], from the response on. *)
Definition CartDrawer_loadCartData_resume (r : Response) : M unit :=
  try_catch
    (match r with
     | NetworkFailure m => throw {| message := m |}
     | HttpOk (Json data) => CartDrawer_set_cartData (Some data)
     | HttpOk (Malformed m) => throw {| message := m |}
     | HttpError _ _ => mret tt
     end)
    (λ error, console_error "Failed to load cart data:" error).

(** [item_count: this.cartData?.item_count || 0, cart: this.cartData] *)
Definition CartDrawer_dispatchCartUpdatedEvent : M unit :=
  c ← gets (cartData ∘ cartDrawer);
  dispatchEvent (EvUpdated (Some (js_or (item_count <$> c) 0)) c).

(** [CartDrawer.updateCart], up to [await this.loadCartData()]; [caller]
    is the function that awaits it. *)
Definition CartDrawer_updateCart (caller : DrawerCaller) : M Outcome :=
  busy ← gets (isLoading ∘ cartDrawer);
  if busy : bool then mret (Returned VUndefined) else
  CartDrawer_set_isLoading true ;;
  fetch CartJs NoBody (K_CD_updateCart caller).

(** [CartDrawer.updateCart], from the response of [loadCartData] on;
    [render] and [updateCartCount] only paint. *)
Definition CartDrawer_updateCart_resume (r : Response) : M unit :=
  try_finally
    (try_catch
       (CartDrawer_loadCartData_resume r ;;
        CartDrawer_dispatchCartUpdatedEvent)
       (λ error,
          console_error "Failed to update cart:" error ;;
          CartDrawer_showError "Failed to update cart. Please try again."))
    (CartDrawer_set_isLoading false).

(** [CartDrawer.updateCartItem(line, quantity)], up to the [await fetch]. *)
Definition CartDrawer_updateCartItem (line qty : Z) : M Outcome :=
  fetch CartChangeJs (ChangeBody line (Some qty)) K_CD_updateCartItem.

Definition CartDrawer_updateCartItem_catch (error : JsError) : M Outcome :=
  console_error "Failed to update cart item:" error ;;
  CartDrawer_showError "Failed to update item. Please try again." ;;
  mret (Returned VUndefined).

(** [CartDrawer.updateCartItem], from the response on: the body of an OK
    response is not read, [updateCart] refetches the cart instead. *)
Definition CartDrawer_updateCartItem_resume (r : Response) : M Outcome :=
  try_catch
    (match r with
     | NetworkFailure m => throw {| message := m |}
     | HttpOk _ => CartDrawer_updateCart FromUpdateCartItem
     | HttpError _ _ => throw {| message := "Failed to update cart item" |}
     end)
    CartDrawer_updateCartItem_catch.

(** [updateCartItem] suspended in [await this.updateCart()]: the rest of
    [updateCart] runs inside the [try] of [updateCartItem]. *)
Definition CartDrawer_updateCartItem_resume2 (r : Response) : M Outcome :=
  try_catch
    (CartDrawer_updateCart_resume r ;; mret (Returned VUndefined))
    CartDrawer_updateCartItem_catch.

(** [CartDrawer.handleUpsellAdd(e)], up to the [await fetch]; [productId]
    is [button.dataset.productId]. *)
Definition CartDrawer_handleUpsellAdd (productId : string) : M Outcome :=
  fetch CartAddJs (AddBody (VidStr productId) 1 None None) K_CD_upsellAdd.

Definition CartDrawer_handleUpsellAdd_catch (error : JsError) : M Outcome :=
  CartDrawer_showError "Failed to add product. Please try again." ;;
  mret (Returned VUndefined).

Definition CartDrawer_handleUpsellAdd_resume (r : Response) : M Outcome :=
  try_catch
    (match r with
     | NetworkFailure m => throw {| message := m |}
     | HttpOk _ => CartDrawer_updateCart FromUpsellAdd
     | HttpError _ _ => throw {| message := "Failed to add product" |}
     end)
    CartDrawer_handleUpsellAdd_catch.

(** [handleUpsellAdd] suspended in [await this.updateCart()]. *)
Definition CartDrawer_handleUpsellAdd_resume2 (r : Response) : M Outcome :=
  try_catch
    (CartDrawer_updateCart_resume r ;; mret (Returned VUndefined))
    CartDrawer_handleUpsellAdd_catch.

(** [CartDrawer.init], after [await this.loadCartData()]; [render] paints. *)
Definition CartDrawer_init_resume (r : Response) : M Outcome :=
  CartDrawer_loadCartData_resume r ;; mret (Returned VUndefined).

(** [parseInt(input.value) || 0], then one step up. *)
Definition CartDrawer_handleQuantityIncrease (line : Z) (v : option Z)
    : M Outcome :=
  let currentQuantity := js_or v 0 in
  let newQuantity := currentQuantity + 1 in
  CartDrawer_updateCartItem line newQuantity.

Definition CartDrawer_handleQuantityDecrease (line : Z) (v : option Z)
    : M Outcome :=
  let currentQuantity := js_or v 0 in
  let newQuantity := Z.max 0 (currentQuantity - 1) in
  CartDrawer_updateCartItem line newQuantity.

(** [updateCartItem] never throws, so the [catch] of [handleRemoveItem]
    is dead. *)
Definition CartDrawer_handleRemoveItem (line : Z) : M Outcome :=
  CartDrawer_updateCartItem line 0.

(** [CartDrawer.handleQuantityChange]: one timer for the whole drawer. *)
Definition CartDrawer_handleQuantityChange (line : Z) (v : option Z)
    : M unit :=
  let qty := js_or v 0 in
  t ← gets (debounceTimer ∘ cartDrawer);
  clearTimeout t ;;
  id ← setTimeout (TaskUpdateCartItem line qty) 500;
  CartDrawer_set_debounceTimer (Some id).

(** [CartDrawer.handleNoteChange]: the same timer field. *)
Definition CartDrawer_handleNoteChange (text : string) : M unit :=
  t ← gets (debounceTimer ∘ cartDrawer);
  clearTimeout t ;;
  id ← setTimeout (TaskSaveNote text) 500;
  CartDrawer_set_debounceTimer (Some id).

(** The timer callback of [handleNoteChange]. *)
Definition CartDrawer_saveNote (text : string) : M Outcome :=
  fetch CartUpdateJs (NoteBody text) K_CD_noteChange.

Definition CartDrawer_saveNote_resume (r : Response) : M Outcome :=
  try_catch
    (match r with
     | NetworkFailure m => throw {| message := m |}
     | _ => mret (Returned VUndefined)
     end)
    (λ error,
       console_error "Failed to update cart note:" error ;;
       mret (Returned VUndefined)).

(** ** cartUtils *)

Record Options := {
  opt_selling_plan : option Z;
  opt_properties : option (list (string * string))
}.

Definition cartUtils_dispatchCartEvent (ev : CartEvent) : M unit :=
  dispatchEvent ev.

Definition cartUtils_set_cartCache (c : option (Cart * Z)) : M unit :=
  modify (with_cartUtils (λ _, {| cartCache := c |})).

Definition cartUtils_clearCartCache : M unit :=
  cartUtils_set_cartCache None.

Definition cartUtils_addToCart_catch (error : JsError) : M Outcome :=
  console_error "Add to cart error:" error ;;
  cartUtils_dispatchCartEvent (EvError (message error)) ;;
  mret (Returned (VResult (Failure (message error)))).

(** [if (options.selling_plan)]: a truthy number. *)
Definition truthy_plan (p : option Z) : option Z :=
  match p with
  | Some n => if n =? 0 then None else Some n
  | None => None
  end.

(** [options.properties && Object.keys(options.properties).length > 0] *)
Definition nonempty_properties (p : option (list (string * string)))
    : option (list (string * string)) :=
  match p with
  | Some [] => None
  | Some l => Some l
  | None => None
  end.

(** [cartUtils.addToCart(variantId, quantity = 1, options = {})], up to the
    [await fetch]; an omitted quantity is [None]. *)
Definition cartUtils_addToCart (variantId : VariantId) (qty_arg : option Z)
    (options : Options) : M Outcome :=
  let qty := default 1 qty_arg in
  try_catch
    (if negb (truthy_vid variantId)
     then throw {| message := "Variant ID is required" |}
     else if qty <? 1
     then throw {| message := "Quantity must be at least 1" |}
     else
       fetch CartAddJs
         (AddBody variantId qty (truthy_plan (opt_selling_plan options))
                  (nonempty_properties (opt_properties options)))
         (K_CU_addToCart qty))
    cartUtils_addToCart_catch.

Definition cartUtils_addToCart_resume (qty : Z) (r : Response) : M Outcome :=
  try_catch
    (match r with
     | NetworkFailure m => throw {| message := m |}
     | HttpError status msg =>
         throw (match msg with
                | Some m => {| message := m |}
                | None => http_error status
                end)
     | HttpOk (Malformed m) => throw {| message := m |}
     | HttpOk (Json data) =>
         cartUtils_updateCartCount ;;
         cartUtils_dispatchCartEvent (EvItemAdded data qty) ;;
         mret (Returned (VResult (Success data)))
     end)
    cartUtils_addToCart_catch.

(** [cartUtils.addMultipleToCart(items)] *)
Definition cartUtils_addMultipleToCart (entries : list (VariantId * Z))
    : M Outcome :=
  try_catch
    (fetch CartAddJs (AddItemsBody entries) K_CU_addMultipleToCart)
    (λ error,
       console_error "Add multiple to cart error:" error ;;
       cartUtils_dispatchCartEvent (EvError (message error)) ;;
       mret (Returned (VResult (Failure (message error))))).

Definition cartUtils_addMultipleToCart_resume (r : Response) : M Outcome :=
  try_catch
    (match r with
     | NetworkFailure m => throw {| message := m |}
     | HttpError status msg =>
         throw (match msg with
                | Some m => {| message := m |}
                | None => http_error status
                end)
     | HttpOk (Malformed m) => throw {| message := m |}
     | HttpOk (Json data) =>
         cartUtils_updateCartCount ;;
         cartUtils_dispatchCartEvent (EvItemsAdded (items data)) ;;
         mret (Returned (VResult (Success data)))
     end)
    (λ error,
       console_error "Add multiple to cart error:" error ;;
       cartUtils_dispatchCartEvent (EvError (message error)) ;;
       mret (Returned (VResult (Failure (message error))))).

(** [cartUtils.updateCartItem(line, quantity)] *)
Definition cartUtils_updateCartItem (line qty : Z) : M Outcome :=
  fetch CartChangeJs (ChangeBody line (Some qty)) K_CU_updateCartItem.

Definition cartUtils_updateCartItem_resume (r : Response) : M Outcome :=
  try_catch
    (match r with
     | NetworkFailure m => throw {| message := m |}
     | HttpError status _ => throw (http_error status)
     | HttpOk (Malformed m) => throw {| message := m |}
     | HttpOk (Json data) => mret (Returned (VResult (Success data)))
     end)
    (λ error,
       console_error "Update cart item error:" error ;;
       mret (Returned (VResult (Failure (message error))))).

(** [cartUtils.removeFromCart(line)] *)
Definition cartUtils_removeFromCart (line : Z) : M Outcome :=
  fetch CartChangeJs (ChangeBody line (Some 0)) K_CU_removeFromCart.

Definition cartUtils_removeFromCart_resume (r : Response) : M Outcome :=
  try_catch
    (match r with
     | NetworkFailure m => throw {| message := m |}
     | HttpError status _ => throw (http_error status)
     | HttpOk (Malformed m) => throw {| message := m |}
     | HttpOk (Json data) => mret (Returned (VResult (Success data)))
     end)
    (λ error,
       console_error "Remove from cart error:" error ;;
       mret (Returned (VResult (Failure (message error))))).

(** [cartUtils.updateCartNote(note)] *)
Definition cartUtils_updateCartNote (text : string) : M Outcome :=
  fetch CartUpdateJs (NoteBody text) (K_CU_updateCartNote text).

Definition cartUtils_updateCartNote_resume (text : string) (r : Response)
    : M Outcome :=
  try_catch
    (match r with
     | NetworkFailure m => throw {| message := m |}
     | HttpError status _ => throw (http_error status)
     | HttpOk (Malformed m) => throw {| message := m |}
     | HttpOk (Json data) =>
         cartUtils_clearCartCache ;;
         cartUtils_dispatchCartEvent (EvNoteUpdated text) ;;
         mret (Returned (VResult (Success data)))
     end)
    (λ error,
       console_error "Update cart note error:" error ;;
       mret (Returned (VResult (Failure (message error))))).

(** [cartUtils.getCartData(forceRefresh = false)]:
    [!forceRefresh && this.cartCache && Date.now() - this.cartCache.timestamp < 5000] *)
Definition cartUtils_getCartData (forceRefresh : bool) : M Outcome :=
  cache ← gets (cartCache ∘ cartUtils);
  t ← gets (now ∘ host);
  match cache with
  | Some (data, timestamp) =>
      if negb forceRefresh && (t - timestamp <? 5000)
      then mret (Returned (VCart (Some data)))
      else fetch CartJs NoBody K_CU_getCartData
  | None => fetch CartJs NoBody K_CU_getCartData
  end.

Definition cartUtils_getCartData_resume (r : Response) : M Outcome :=
  try_catch
    (match r with
     | NetworkFailure m => throw {| message := m |}
     | HttpError status _ => throw (http_error status)
     | HttpOk (Malformed m) => throw {| message := m |}
     | HttpOk (Json data) =>
         t ← gets (now ∘ host);
         cartUtils_set_cartCache (Some (data, t)) ;;
         mret (Returned (VCart (Some data)))
     end)
    (λ error,
       console_error "Get cart data error:" error ;;
       mret (Returned (VCart None))).

(** ** The event loop *)

(** Run one task to its end or to its suspension, and record how the promise
    of entry point [o] settled. *)
Definition run_async (o : Op) (m : M Outcome) (w : World) : World :=
  match m w with
  | (Normal Awaiting, w') => w'
  | (Normal (Returned v), w') => with_host (host_settle o (Normal v)) w'
  | (Throw e, w') => with_host (host_settle o (Throw e)) w'
  end.

(** Run a synchronous handler; an exception is reported by the host. *)
Definition run_sync (m : M unit) (w : World) : World := snd (m w).

(** The code behind a continuation tag, with the entry point it belongs to. *)
Definition resume (k : Cont) (r : Response) : Op * M Outcome :=
  match k with
  | K_CS_updateLineItem input line =>
      (OpCS_updateLineItem, CartSystem_updateLineItem_resume input line r)
  | K_CS_removeLineItem =>
      (OpCS_removeLineItem, CartSystem_removeLineItem_resume r)
  | K_CS_reloadMiniCartSection =>
      (OpCS_reloadMiniCartSection, CartSystem_reloadMiniCartSection_resume r)
  | K_CD_init => (OpCD_init, CartDrawer_init_resume r)
  | K_CD_updateCartItem =>
      (OpCD_updateCartItem, CartDrawer_updateCartItem_resume r)
  | K_CD_updateCart FromUpdateCartItem =>
      (OpCD_updateCartItem, CartDrawer_updateCartItem_resume2 r)
  | K_CD_updateCart FromUpsellAdd =>
      (OpCD_handleUpsellAdd, CartDrawer_handleUpsellAdd_resume2 r)
  | K_CD_upsellAdd =>
      (OpCD_handleUpsellAdd, CartDrawer_handleUpsellAdd_resume r)
  | K_CD_noteChange => (OpCD_noteChange, CartDrawer_saveNote_resume r)
  | K_CU_addToCart qty => (OpCU_addToCart, cartUtils_addToCart_resume qty r)
  | K_CU_addMultipleToCart =>
      (OpCU_addMultipleToCart, cartUtils_addMultipleToCart_resume r)
  | K_CU_updateCartItem =>
      (OpCU_updateCartItem, cartUtils_updateCartItem_resume r)
  | K_CU_removeFromCart =>
      (OpCU_removeFromCart, cartUtils_removeFromCart_resume r)
  | K_CU_updateCartNote text =>
      (OpCU_updateCartNote, cartUtils_updateCartNote_resume text r)
  | K_CU_getCartData => (OpCU_getCartData, cartUtils_getCartData_resume r)
  | K_CU_updateCartCount =>
      (OpCU_updateCartCount, cartUtils_updateCartCount_resume r)
  end.

(** Take the request with id [id] out of the in-flight list. *)
Fixpoint take_pending (id : nat) (l : list Pending)
    : option (Pending * list Pending) :=
  match l with
  | [] => None
  | p :: l' =>
      if (rid p =? id)%nat then Some (p, l')
      else match take_pending id l' with
           | Some (q, rest) => Some (q, p :: rest)
           | None => None
           end
  end.

(** The host delivers response [r] to request [id]. *)
Definition deliver (id : nat) (r : Response) (w : World) : World :=
  match take_pending id (inflight (host w)) with
  | None => w
  | Some (p, rest) =>
      let w' := with_host (host_set_inflight rest) w in
      run_async (fst (resume (cont p) r)) (snd (resume (cont p) r)) w'
  end.

(** A timer fires. *)
Definition fire (t : Timer) (w : World) : World :=
  match task t with
  | TaskUpdateCartItem line qty =>
      run_async OpCD_updateCartItem (CartDrawer_updateCartItem line qty) w
  | TaskSaveNote text =>
      run_async OpCD_noteChange (CartDrawer_saveNote text) w
  end.

Definition is_due (t : Z) (tm : Timer) : bool := due tm <=? t.

(** The clock advances by [dt] and every timer that is due fires, oldest
    first.  No callback arms a timer, so one pass is enough. *)
Definition tick (dt : Z) (w : World) : World :=
  let t := now (host w) + dt in
  let ready := List.filter (is_due t) (timers (host w)) in
  let waiting := List.filter (λ tm, negb (is_due t tm)) (timers (host w)) in
  let w' := with_host (λ h,
              host_set_timers (fresh h) waiting (host_set_now t h)) w in
  foldl (λ acc tm, fire tm acc) w' ready.

(** What can happen on the page. *)
Inductive Action :=
| UserTypes (input : nat) (v : option Z)
| CS_updateLineItem (input : nat)
| CS_removeLineItem (line : Z)
| CD_handleQuantityIncrease (line : Z) (v : option Z)
| CD_handleQuantityDecrease (line : Z) (v : option Z)
| CD_handleQuantityChange (line : Z) (v : option Z)
| CD_handleRemoveItem (line : Z)
| CD_handleNoteChange (text : string)
| CD_handleUpsellAdd (productId : string)
| CU_addToCart (variantId : VariantId) (qty : option Z) (options : Options)
| CU_addMultipleToCart (entries : list (VariantId * Z))
| CU_updateCartItem (line qty : Z)
| CU_removeFromCart (line : Z)
| CU_updateCartNote (text : string)
| CU_getCartData (forceRefresh : bool)
| CU_clearCartCache
| CU_updateCartCount
| Respond (id : nat) (r : Response)
| Tick (dt : Z).

Definition user_types (input : nat) (v : option Z) (w : World) : World :=
  with_host (λ h,
    host_set_inputs
      (alter (λ el, {| dataset_line := dataset_line el; value := v |})
             input (inputs h)) h) w.

Definition exec (a : Action) (w : World) : World :=
  match a with
  | UserTypes input v => user_types input v w
  | CS_updateLineItem input =>
      match inputs (host w) !! input with
      | Some _ => run_async OpCS_updateLineItem (CartSystem_updateLineItem input) w
      | None => w
      end
  | CS_removeLineItem line =>
      run_async OpCS_removeLineItem (CartSystem_removeLineItem line) w
  | CD_handleQuantityIncrease line v =>
      run_async OpCD_updateCartItem (CartDrawer_handleQuantityIncrease line v) w
  | CD_handleQuantityDecrease line v =>
      run_async OpCD_updateCartItem (CartDrawer_handleQuantityDecrease line v) w
  | CD_handleQuantityChange line v =>
      run_sync (CartDrawer_handleQuantityChange line v) w
  | CD_handleRemoveItem line =>
      run_async OpCD_updateCartItem (CartDrawer_handleRemoveItem line) w
  | CD_handleNoteChange text =>
      run_sync (CartDrawer_handleNoteChange text) w
  | CD_handleUpsellAdd productId =>
      run_async OpCD_handleUpsellAdd (CartDrawer_handleUpsellAdd productId) w
  | CU_addToCart variantId qty options =>
      run_async OpCU_addToCart (cartUtils_addToCart variantId qty options) w
  | CU_addMultipleToCart entries =>
      run_async OpCU_addMultipleToCart (cartUtils_addMultipleToCart entries) w
  | CU_updateCartItem line qty =>
      run_async OpCU_updateCartItem (cartUtils_updateCartItem line qty) w
  | CU_removeFromCart line =>
      run_async OpCU_removeFromCart (cartUtils_removeFromCart line) w
  | CU_updateCartNote text =>
      run_async OpCU_updateCartNote (cartUtils_updateCartNote text) w
  | CU_getCartData forceRefresh =>
      run_async OpCU_getCartData (cartUtils_getCartData forceRefresh) w
  | CU_clearCartCache => run_sync cartUtils_clearCartCache w
  | CU_updateCartCount => run_sync cartUtils_updateCartCount w
  | Respond id r => deliver id r w
  | Tick dt => tick dt w
  end.

Definition run (tr : list Action) (w : World) : World :=
  foldl (λ acc a, exec a acc) w tr.

(** The shopper edits a quantity input of the drawer.  [renderCartItem]
    writes the input with both [data-cart-quantity-input] and [data-line],
    so its [change] event, on its way up, meets the listener of the drawer
    ([setupEventListeners]: [handleQuantityChange]) and then the listener
    [CartSystem.bindEvents] put on the document ([updateLineItem]).  Both
    read [dataset.line] and [value] of the same input. *)
Definition drawer_input_change (input : nat) (v : option Z) (w : World)
    : World :=
  let w1 := user_types input v w in
  match inputs (host w1) !! input with
  | Some el =>
      exec (CS_updateLineItem input)
        (exec (CD_handleQuantityChange (dataset_line el) (value el)) w1)
  | None => w1
  end.

(** The page before any script ran. *)
Definition blank (t0 : Z) (els : list InputEl) (mini : bool) : World :=
  {| host := {| now := t0; fresh := 0%nat; inflight := []; sent := [];
                timers := []; events := []; toasts := []; console := [];
                settled := []; inputs := els; dom_mini_cart := mini |};
     cartSystem := {| cart := None; isUpdating := false |};
     cartDrawer := {| isLoading := false; cartData := None;
                      debounceTimer := None |};
     cartUtils := {| cartCache := None |} |}.

(** [cartUtils.init]: the cache starts empty and the badge is refreshed. *)
Definition cartUtils_init : M unit :=
  cartUtils_set_cartCache None ;;
  cartUtils_updateCartCount.

(** [CartDrawer.init], up to [await this.loadCartData()]. *)
Definition CartDrawer_init : M Outcome :=
  fetch CartJs NoBody K_CD_init.

(** The page once the three scripts are set up. *)
Definition boot (t0 : Z) (els : list InputEl) (mini : bool) : World :=
  run_async OpCD_init CartDrawer_init
    (run_sync cartUtils_init (blank t0 els mini)).

Definition reachable (w : World) : Prop :=
  ∃ t0 els mini tr, w = run tr (boot t0 els mini).

(** ** Observations *)

(** In-flight cart mutation requests, over all components. *)
Definition mutations_in_flight (w : World) : list Pending :=
  List.filter (λ p, is_mutation (req p)) (inflight (host w)).

Definition is_cs_cont (k : Cont) : bool :=
  match k with
  | K_CS_updateLineItem _ _ | K_CS_removeLineItem => true
  | _ => false
  end.

Definition is_cs_mutation (p : Pending) : bool := is_cs_cont (cont p).

(** In-flight mutation requests issued by [CartSystem]. *)
Definition cs_mutations_in_flight (w : World) : list Pending :=
  List.filter is_cs_mutation (inflight (host w)).

(** The requests issued between [w] and [w']. *)
Definition issued_since (w w' : World) : list Request :=
  drop (length (sent (host w))) (sent (host w')).

Definition events_since (w w' : World) : list CartEvent :=
  drop (length (events (host w))) (events (host w')).

Definition settled_since (w w' : World) : list (Op * Completion Value) :=
  drop (length (settled (host w))) (settled (host w')).

(** What [CartSystem]'s guard and the drawer's debounce rest on: the flag,
    [CartSystem]'s own requests, the armed timers and the remembered timer. *)
Definition view (w : World)
    : bool * list Pending * list Timer * option nat :=
  (isUpdating (cartSystem w), cs_mutations_in_flight w,
   timers (host w), debounceTimer (cartDrawer w)).

(** The armed timers are the one the drawer remembers. *)
Definition timers_inv (w : World) : Prop :=
  ∀ t, t ∈ timers (host w) → debounceTimer (cartDrawer w) = Some (tid t).

(** [CartSystem]'s flag covers its own requests. *)
Definition cs_inv (w : World) : Prop :=
  (length (cs_mutations_in_flight w) ≤ 1)%nat ∧
  (isUpdating (cartSystem w) = false → cs_mutations_in_flight w = []).

(** Ids are handed out in increasing order: every request in flight has an
    id below the next one, so the next request is the only one of its id. *)
Definition ids_inv (w : World) : Prop :=
  Forall (λ p, (rid p < fresh (host w))%nat) (inflight (host w)).

(** A response that makes the operation fail. *)
Definition is_failure (r : Response) : bool :=
  match r with
  | HttpOk (Json _) => false
  | _ => true
  end.

Definition change_request (line : Z) (qty : option Z) : Request :=
  {| endpoint := CartChangeJs; body := ChangeBody line qty |}.

(** ** Sample pages *)

Definition demo_cart : Cart :=
  {| item_count := 2; total_price := 3000;
     items := [ {| item_id := 101; quantity := 1; line_price := 1000 |};
                {| item_id := 202; quantity := 1; line_price := 2000 |} ];
     note := "" |}.

Definition demo_inputs : list InputEl :=
  [ {| dataset_line := 1; value := Some 1 |};
    {| dataset_line := 2; value := Some 1 |} ].

(** The page right after set-up: two reads of [/cart.js] are in flight
    (ids 0 and 1). *)
Definition demo_page : World := boot 0 demo_inputs false.

(** The same page once the badge refresh was answered: [CartSystem] holds
    the cart, and the shopper typed 5 into the first input. *)
Definition loaded_page : World :=
  run [Respond 0 (HttpOk (Json demo_cart)); UserTypes 0 (Some 5)] demo_page.

(** The loaded page after the shopper set line 2 to 3 in the drawer and the
    window passed: [CartSystem] and the drawer have each sent the change,
    neither request is answered yet. *)
Definition busy_page : World :=
  exec (Tick 500) (drawer_input_change 1 (Some 3) loaded_page).

(** ** The claims as worded, for the ones the scripts do not meet *)

(** One mutation request in flight at most, whoever issues it. *)
Definition single_flight_everywhere : Prop :=
  ∀ w, reachable w → (length (mutations_in_flight w) ≤ 1)%nat.

(** Cart [c] shows quantity [q] on line [line]. *)
Definition shows_quantity (c : option Cart) (line q : Z) : Prop :=
  ∃ c' it, c = Some c' ∧ js_index (items c') (line - 1) = Some it ∧
           quantity it = q.

(** Between [w] and [w'] observers were handed a cart with the edited
    quantity: through an event, or through the cart a component paints. *)
Definition prediction_handed (w w' : World) (line q : Z) : Prop :=
  (∃ n c, EvUpdated n c ∈ events_since w w' ∧ shows_quantity c line q) ∨
  shows_quantity (cart (cartSystem w')) line q ∨
  shows_quantity (cartData (cartDrawer w')) line q.

(** Every quantity edit is predicted before its response. *)
Definition optimistic_prediction : Prop :=
  ∀ w input el q,
    reachable w →
    inputs (host w) !! input = Some el →
    value el = Some q →
    isUpdating (cartSystem w) = false →
    prediction_handed w (exec (CS_updateLineItem input) w) (dataset_line el) q.

(** An edit submitted while another is in flight is issued once that one
    settled. *)
Definition queued_behind : Prop :=
  ∀ w i1 i2 e1 e2 data,
    reachable w →
    isUpdating (cartSystem w) = false →
    inputs (host w) !! i1 = Some e1 →
    inputs (host w) !! i2 = Some e2 →
    change_request (dataset_line e2) (value e2) ∈
      issued_since w
        (run [CS_updateLineItem i1; CS_updateLineItem i2;
              Respond (fresh (host w)) (HttpOk (Json data))] w).

(** Three edits of one line of the drawer (5, then 6, then 7), each inside
    the window of the one before, then the window passes: one call, to the
    change endpoint, carrying 7. *)
Definition three_edits_one_call : Prop :=
  ∀ w input el d1 d2,
    reachable w →
    inputs (host w) !! input = Some el →
    0 ≤ d1 < 500 → 0 ≤ d2 < 500 →
    issued_since w
      (exec (Tick 500) (drawer_input_change input (Some 7)
        (exec (Tick d2) (drawer_input_change input (Some 6)
          (exec (Tick d1) (drawer_input_change input (Some 5) w))))))
    = [change_request (dataset_line el) (Some 7)].

(** Debouncing is per line: an edit of another line within the window does
    not cancel the pending one, whose quantity is still sent. *)
Definition per_line_debounce : Prop :=
  ∀ w i1 i2 e1 e2 q1 q2 d,
    reachable w →
    inputs (host w) !! i1 = Some e1 →
    inputs (host w) !! i2 = Some e2 →
    dataset_line e1 ≠ dataset_line e2 →
    0 ≤ d < 500 →
    change_request (dataset_line e1) (Some q1) ∈
      issued_since w
        (exec (Tick 500) (drawer_input_change i2 (Some q2)
          (exec (Tick d) (drawer_input_change i1 (Some q1) w)))).

(** The same [changeLine] twice in a row is one network call. *)
Definition changeLine_idempotent : Prop :=
  ∀ w line q,
    reachable w →
    length (issued_since w
              (run [CU_updateCartItem line q; CU_updateCartItem line q] w))
    = 1%nat.






(** ** Further observations of the event loop *)

Definition is_refresh_cont (k : Cont) : bool :=
  match k with
  | K_CD_updateCart _ => true
  | _ => false
  end.

(** In-flight reads of /cart.js issued by [CartDrawer.updateCart]. *)
Definition refreshes_in_flight (w : World) : list Pending :=
  List.filter (λ p, is_refresh_cont (cont p)) (inflight (host w)).

(** The drawer's [isLoading] flag covers its own refresh. *)
Definition drawer_inv (w : World) : Prop :=
  (length (refreshes_in_flight w) ≤ 1)%nat ∧
  (isLoading (cartDrawer w) = false → refreshes_in_flight w = []).

Definition drawer_view (w : World) : bool * list Pending :=
  (isLoading (cartDrawer w), refreshes_in_flight w).

Definition is_respond (a : Action) : bool :=
  match a with
  | Respond _ _ => true
  | _ => false
  end.

Definition cart_js : Request := {| endpoint := CartJs; body := NoBody |}.

Definition note_request (text : string) : Request :=
  {| endpoint := CartUpdateJs; body := NoteBody text |}.

(** ** The shipping calculator of [CartSystem] *)

(** [\d]: the ASCII digits. *)
Definition is_digit (c : Ascii.ascii) : bool :=
  (48 <=? Ascii.nat_of_ascii c)%nat && (Ascii.nat_of_ascii c <=? 57)%nat.

(** [value.replace(/\D/g, '')] *)
Definition digits_of (value : list Ascii.ascii) : list Ascii.ascii :=
  List.filter is_digit value.

Record ShippingRate := {
  rate_name : string;
  rate_price : Z;
  rate_days : string
}.

(** The elements of the calculator: #zip-code, #botao-calculo-frete,
    #shipping-error and #result-cep, all present. *)
Record ShippingForm := {
  zip_value : list Ascii.ascii;       (* zipInput.value *)
  button_disabled : bool;
  button_valid : bool;          (* class cart-drawer__shipping-btn--valid *)
  button_loading : bool;        (* class cart-drawer__shipping-btn--loading *)
  error_text : string;          (* text of the error element *)
  error_visible : bool;
  rates_shown : list ShippingRate;  (* what #result-cep lists *)
  result_visible : bool
}.

(** [CartSystem.formatZipCode(input)], on the text of the field. *)
Definition formatZipCode_value (text : list Ascii.ascii) : list Ascii.ascii :=
  let value := digits_of text in
  if (5 <? length value)%nat
  then take 5 value ++ ["-"%char] ++ take 3 (drop 5 value)
  else value.

Definition CartSystem_formatZipCode (f : ShippingForm) : ShippingForm :=
  {| zip_value := formatZipCode_value (zip_value f);
     button_disabled := button_disabled f; button_valid := button_valid f;
     button_loading := button_loading f; error_text := error_text f;
     error_visible := error_visible f; rates_shown := rates_shown f;
     result_visible := result_visible f |}.

(** [CartSystem.validateZipCode(input)] *)
Definition CartSystem_validateZipCode (f : ShippingForm) : ShippingForm :=
  let zipCode := digits_of (zip_value f) in
  let ok := (length zipCode =? 8)%nat in
  {| zip_value := zip_value f;
     button_disabled := negb ok; button_valid := ok;
     button_loading := button_loading f; error_text := error_text f;
     error_visible := false; rates_shown := rates_shown f;
     result_visible := result_visible f |}.

(** The [input] listener of the field: the shopper's text is in the field,
    then [formatZipCode] and [validateZipCode] run. *)
Definition zip_input_listener (typed : list Ascii.ascii) (f : ShippingForm)
    : ShippingForm :=
  CartSystem_validateZipCode
    (CartSystem_formatZipCode
       {| zip_value := typed;
          button_disabled := button_disabled f; button_valid := button_valid f;
          button_loading := button_loading f; error_text := error_text f;
          error_visible := error_visible f; rates_shown := rates_shown f;
          result_visible := result_visible f |}).

(** [CartSystem.showShippingError(message)] *)
Definition CartSystem_showShippingError (msg : string) (f : ShippingForm)
    : ShippingForm :=
  {| zip_value := zip_value f;
     button_disabled := button_disabled f; button_valid := button_valid f;
     button_loading := button_loading f; error_text := msg;
     error_visible := true; rates_shown := rates_shown f;
     result_visible := false |}.

(** [CartSystem.calculateShippingRates()], up to
    [await this.fetchShippingRates(zipCode)]: the form, and whether the
    lookup was started. *)
Definition CartSystem_calculateShippingRates (f : ShippingForm)
    : ShippingForm * bool :=
  let zipCode := digits_of (zip_value f) in
  if negb (length zipCode =? 8)%nat
  then (CartSystem_showShippingError "CEP deve ter 8 dígitos" f, false)
  else ({| zip_value := zip_value f;
           button_disabled := true; button_valid := button_valid f;
           button_loading := true; error_text := error_text f;
           error_visible := false; rates_shown := rates_shown f;
           result_visible := false |}, true).

(** What the placeholder [fetchShippingRates] resolves with after its
    1000 ms timer. *)
Definition placeholder_rates : list ShippingRate :=
  [ {| rate_name := "PAC"; rate_price := 1500; rate_days := "5-7 dias úteis" |};
    {| rate_name := "SEDEX"; rate_price := 2500; rate_days := "2-3 dias úteis" |};
    {| rate_name := "SEDEX 10"; rate_price := 3500; rate_days := "1 dia útil" |} ].

(** [calculateShippingRates], from the answer of [fetchShippingRates] on:
    [displayShippingRates], then the [finally] block. *)
Definition CartSystem_calculateShippingRates_resume (f : ShippingForm)
    : ShippingForm :=
  {| zip_value := zip_value f;
     button_disabled := false; button_valid := button_valid f;
     button_loading := false; error_text := error_text f;
     error_visible := error_visible f; rates_shown := placeholder_rates;
     result_visible := true |}.

(** ** The quantity selector of [productUtils] *)

(** The input [.quantity-input__input]: [None] when the page has none;
    its value is [None] for a text [parseInt] maps to [NaN].  The numbers
    of the code are doubles: [currentValue + 1] and [currentValue - 1] are
    the integers written here for quantities between -2^53 and 2^53, and
    are rounded beyond. *)
Definition productUtils_decreaseQuantity (quantityInput : option (option Z))
    : option (option Z) :=
  match quantityInput with
  | None => None
  | Some v =>
      let currentValue := js_or v 1 in
      if 1 <? currentValue then Some (Some (currentValue - 1)) else Some v
  end.

Definition productUtils_increaseQuantity (quantityInput : option (option Z))
    : option (option Z) :=
  match quantityInput with
  | None => None
  | Some v =>
      let currentValue := js_or v 1 in
      Some (Some (currentValue + 1))
  end.

(** [if (isNaN(value) || value < 1) quantityInput.value = 1] *)
Definition productUtils_validateQuantity (quantityInput : option (option Z))
    : option (option Z) :=
  match quantityInput with
  | None => None
  | Some None => Some (Some 1)
  | Some (Some n) => if n <? 1 then Some (Some 1) else Some (Some n)
  end.

Inductive QuantityEvent :=
| ClickMinus
| ClickPlus
| InputChange.

Definition quantity_listener (e : QuantityEvent)
    (quantityInput : option (option Z)) : option (option Z) :=
  match e with
  | ClickMinus => productUtils_decreaseQuantity quantityInput
  | ClickPlus => productUtils_increaseQuantity quantityInput
  | InputChange => productUtils_validateQuantity quantityInput
  end.

(** ** Recently viewed products of [productUtils] *)

Record Product := {
  product_id : Z;
  product_title : string;
  product_handle : string;
  product_featured_image : string;
  product_url : string
}.

Record Variant := {
  variant_id : Z;
  variant_price : Z;
  variant_options : list string
}.

(** An entry of [state.recentlyViewed]. *)
Record Viewed := {
  viewed_id : Z;
  viewed_title : string;
  viewed_handle : string;
  viewed_image : string;
  viewed_price : Z;
  viewed_url : string
}.

(** [productUtils.addToRecentlyViewed()]: the new [state.recentlyViewed];
    reading [this.state.currentVariant.price] throws when no variant is
    current.  The copy written to [localStorage] is not modelled. *)
Definition productUtils_addToRecentlyViewed (product : Product)
    (currentVariant : option Variant) (recentlyViewed : list Viewed)
    : Completion (list Viewed) :=
  match currentVariant with
  | None => Throw (null_deref "price")
  | Some v =>
      let productData :=
        {| viewed_id := product_id product;
           viewed_title := product_title product;
           viewed_handle := product_handle product;
           viewed_image := product_featured_image product;
           viewed_price := variant_price v;
           viewed_url := product_url product |} in
      Normal (take 10
        (productData ::
         List.filter (λ item, negb (viewed_id item =? viewed_id productData))
                     recentlyViewed))
  end.

(** ** The gallery of [productUtils] *)

(** [productUtils.navigateGallery(direction)]: the new [state.galleryIndex],
    for a page with [mediaItems] media. *)
Definition productUtils_navigateGallery (mediaItems : nat) (direction : Z)
    (galleryIndex : Z) : Z :=
  let newIndex := galleryIndex + direction in
  if (0 <=? newIndex) && (newIndex <? Z.of_nat mediaItems)
  then newIndex
  else galleryIndex.

(** ** Variant lookup of [productUtils] *)

(** One entry of [selectedOptions]: the number [parseInt] reads in the
    input's name once "option" is taken out ([None] for [NaN]), and the
    checked value. *)
Definition option_matches (variant : Variant) (entry : option Z * string)
    : bool :=
  match fst entry with
  | None => false
  | Some n =>
      match js_index (variant_options variant) (n - 1) with
      | Some o => String.eqb o (snd entry)
      | None => false
      end
  end.

(** [productUtils.findVariantByOptions(selectedOptions)] *)
Definition productUtils_findVariantByOptions (variants : list Variant)
    (selectedOptions : list (option Z * string)) : option Variant :=
  List.find (λ variant, forallb (option_matches variant) selectedOptions)
            variants.

(** * Properties *)

(** Unfolding the monad, the scripts and the event loop. *)
Ltac unfold_m :=
  cbv [mbind mret M_bind M_ret bind ret throw try_catch try_finally gets
       modify swallow compose] in *.

Ltac unfold_scripts :=
  unfold
    cartUtils_updateCartCount_resume, cartUtils_getCart_resume,
    cartUtils_addToCart, cartUtils_addToCart_resume, cartUtils_addToCart_catch,
    cartUtils_addMultipleToCart, cartUtils_addMultipleToCart_resume,
    CartDrawer_handleUpsellAdd, CartDrawer_handleUpsellAdd_resume,
    CartDrawer_handleUpsellAdd_resume2, CartDrawer_handleUpsellAdd_catch,
    cartUtils_updateCartItem, cartUtils_updateCartItem_resume,
    cartUtils_removeFromCart, cartUtils_removeFromCart_resume,
    cartUtils_updateCartNote, cartUtils_updateCartNote_resume,
    cartUtils_getCartData, cartUtils_getCartData_resume,
    cartUtils_clearCartCache, cartUtils_set_cartCache,
    cartUtils_dispatchCartEvent, cartUtils_init,
    CartDrawer_init, CartDrawer_init_resume,
    CartDrawer_handleQuantityIncrease, CartDrawer_handleQuantityDecrease,
    CartDrawer_handleRemoveItem, CartDrawer_handleQuantityChange,
    CartDrawer_handleNoteChange, CartDrawer_saveNote,
    CartDrawer_saveNote_resume,
    CartDrawer_updateCartItem_resume2, CartDrawer_updateCartItem_resume,
    CartDrawer_updateCartItem_catch, CartDrawer_updateCartItem,
    CartDrawer_updateCart_resume, CartDrawer_updateCart,
    CartDrawer_dispatchCartUpdatedEvent, CartDrawer_loadCartData_resume,
    CartDrawer_showError, CartDrawer_set_isLoading, CartDrawer_set_cartData,
    CartDrawer_set_debounceTimer,
    CartSystem_updateLineItem, CartSystem_updateLineItem_resume,
    CartSystem_removeLineItem, CartSystem_removeLineItem_resume,
    CartSystem_dispatchCartUpdatedEvent, CartSystem_showNotification,
    CartSystem_reloadMiniCartSection_resume, set_input_value,
    dispatchEvent, CartSystem_handleCartUpdate, CartSystem_updateCartUI,
    CartSystem_updateMiniCart, CartSystem_reloadMiniCartSection,
    cartUtils_updateCartCount, CartSystem_set_cart, CartSystem_set_isUpdating,
    fetch, console_error, clearTimeout, setTimeout in *.

Ltac split_cases :=
  repeat (simpl in *; try case_match; simplify_eq).

Ltac filter_apps :=
  repeat (rewrite List.filter_app; simpl); rewrite ?app_nil_r.

(** Closes goals that compare the [view] of a world before and after a
    script that touches none of its parts. *)
Ltac frame :=
  intros; unfold_scripts; unfold_m;
  unfold view, cs_mutations_in_flight, run_async, run_sync in *;
  split_cases; filter_apps; try reflexivity.

(** ** Frame lemmas: scripts that leave the [view] alone *)

Section Frames.

Implicit Types (w : World) (r : Response).

Lemma view_settle o c w : view (with_host (host_settle o c) w) = view w.
Proof. reflexivity. Qed.

Lemma view_run_async o (m : M Outcome) w :
  view (run_async o m w) = view (snd (m w)).
Proof.
  unfold run_async. destruct (m w) as [[[|v]|e] w']; reflexivity.
Qed.

Lemma view_updateCartCount_resume r w :
  view (snd (cartUtils_updateCartCount_resume r w)) = view w.
Proof. destruct r as [m|[d|m]|s m]; frame. Qed.

Lemma view_reloadMiniCartSection_resume r w :
  view (snd (CartSystem_reloadMiniCartSection_resume r w)) = view w.
Proof. destruct r as [m|[d|m]|s m]; frame. Qed.

Lemma view_CartDrawer_init_resume r w :
  view (snd (CartDrawer_init_resume r w)) = view w.
Proof. destruct r as [m|[d|m]|s m]; frame. Qed.

Lemma view_CartDrawer_updateCartItem line qty w :
  view (snd (CartDrawer_updateCartItem line qty w)) = view w.
Proof. frame. Qed.

Lemma view_CartDrawer_updateCartItem_resume r w :
  view (snd (CartDrawer_updateCartItem_resume r w)) = view w.
Proof. destruct r as [m|[d|m]|s m]; frame. Qed.

Lemma view_CartDrawer_updateCartItem_resume2 r w :
  view (snd (CartDrawer_updateCartItem_resume2 r w)) = view w.
Proof. destruct r as [m|[d|m]|s m]; frame. Qed.

Lemma view_CartDrawer_saveNote text w :
  view (snd (CartDrawer_saveNote text w)) = view w.
Proof. frame. Qed.

Lemma view_CartDrawer_saveNote_resume r w :
  view (snd (CartDrawer_saveNote_resume r w)) = view w.
Proof. destruct r as [m|[d|m]|s m]; frame. Qed.

Lemma view_addToCart v q o w :
  view (snd (cartUtils_addToCart v q o w)) = view w.
Proof. frame. Qed.

Lemma view_addToCart_resume q r w :
  view (snd (cartUtils_addToCart_resume q r w)) = view w.
Proof. destruct r as [m|[d|m]|s [m|]]; frame. Qed.

Lemma view_updateCartItem line q w :
  view (snd (cartUtils_updateCartItem line q w)) = view w.
Proof. frame. Qed.

Lemma view_updateCartItem_resume r w :
  view (snd (cartUtils_updateCartItem_resume r w)) = view w.
Proof. destruct r as [m|[d|m]|s m]; frame. Qed.

Lemma view_removeFromCart line w :
  view (snd (cartUtils_removeFromCart line w)) = view w.
Proof. frame. Qed.

Lemma view_removeFromCart_resume r w :
  view (snd (cartUtils_removeFromCart_resume r w)) = view w.
Proof. destruct r as [m|[d|m]|s m]; frame. Qed.

Lemma view_updateCartNote text w :
  view (snd (cartUtils_updateCartNote text w)) = view w.
Proof. frame. Qed.

Lemma view_updateCartNote_resume text r w :
  view (snd (cartUtils_updateCartNote_resume text r w)) = view w.
Proof. destruct r as [m|[d|m]|s m]; frame. Qed.

Lemma view_getCartData force w :
  view (snd (cartUtils_getCartData force w)) = view w.
Proof. frame. Qed.

Lemma view_getCartData_resume r w :
  view (snd (cartUtils_getCartData_resume r w)) = view w.
Proof. destruct r as [m|[d|m]|s m]; frame. Qed.

Lemma view_user_types input v w : view (user_types input v w) = view w.
Proof. reflexivity. Qed.

Lemma view_handleQuantityIncrease line v w :
  view (snd (CartDrawer_handleQuantityIncrease line v w)) = view w.
Proof. frame. Qed.

Lemma view_handleQuantityDecrease line v w :
  view (snd (CartDrawer_handleQuantityDecrease line v w)) = view w.
Proof. frame. Qed.

Lemma view_handleRemoveItem line w :
  view (snd (CartDrawer_handleRemoveItem line w)) = view w.
Proof. frame. Qed.

Lemma view_handleUpsellAdd productId w :
  view (snd (CartDrawer_handleUpsellAdd productId w)) = view w.
Proof. frame. Qed.

Lemma view_handleUpsellAdd_resume r w :
  view (snd (CartDrawer_handleUpsellAdd_resume r w)) = view w.
Proof. destruct r as [m|[d|m]|s m]; frame. Qed.

Lemma view_handleUpsellAdd_resume2 r w :
  view (snd (CartDrawer_handleUpsellAdd_resume2 r w)) = view w.
Proof. destruct r as [m|[d|m]|s m]; frame. Qed.

Lemma view_addMultipleToCart entries w :
  view (snd (cartUtils_addMultipleToCart entries w)) = view w.
Proof. frame. Qed.

Lemma view_addMultipleToCart_resume r w :
  view (snd (cartUtils_addMultipleToCart_resume r w)) = view w.
Proof. destruct r as [m|[d|m]|s [m|]]; frame. Qed.

Lemma view_clearCartCache w : view (snd (cartUtils_clearCartCache w)) = view w.
Proof. frame. Qed.

Lemma view_updateCartCount w :
  view (snd (cartUtils_updateCartCount w)) = view w.
Proof. frame. Qed.

End Frames.

Create Rewrite HintDb view.
#[global] Hint Rewrite
  view_settle view_run_async view_updateCartCount_resume
  view_reloadMiniCartSection_resume view_CartDrawer_init_resume
  view_CartDrawer_updateCartItem view_CartDrawer_updateCartItem_resume
  view_CartDrawer_updateCartItem_resume2 view_CartDrawer_saveNote
  view_CartDrawer_saveNote_resume view_addToCart view_addToCart_resume
  view_updateCartItem view_updateCartItem_resume view_removeFromCart
  view_removeFromCart_resume view_updateCartNote view_updateCartNote_resume
  view_getCartData view_getCartData_resume view_user_types
  view_handleQuantityIncrease view_handleQuantityDecrease
  view_handleRemoveItem view_clearCartCache view_updateCartCount
  view_handleUpsellAdd view_handleUpsellAdd_resume
  view_handleUpsellAdd_resume2 view_addMultipleToCart
  view_addMultipleToCart_resume : view.

(** ** The two invariants of the page *)

Section Invariants.

Implicit Types (w : World) (r : Response).

Lemma cs_inv_view w w' : view w = view w' → cs_inv w → cs_inv w'.
Proof.
  unfold view, cs_inv. intros Hv [H1 H2].
  injection Hv as Hu Hc _ _. rewrite <- Hu, <- Hc. done.
Qed.

Lemma timers_inv_view w w' : view w = view w' → timers_inv w → timers_inv w'.
Proof.
  unfold view, timers_inv. intros Hv H.
  injection Hv as _ _ Ht Hd. rewrite <- Ht, <- Hd. done.
Qed.

(** Taking a request out of the in-flight list. *)
Lemma take_pending_cs id (l : list Pending) p rest :
  take_pending id l = Some (p, rest) →
  if is_cs_mutation p
  then length (List.filter is_cs_mutation l)
       = S (length (List.filter is_cs_mutation rest))
  else List.filter is_cs_mutation rest = List.filter is_cs_mutation l.
Proof.
  revert p rest. induction l as [|q l IH]; intros p rest H; simpl in H.
  - discriminate.
  - destruct (rid q =? id)%nat.
    + injection H as <- <-. simpl. destruct (is_cs_mutation q); reflexivity.
    + destruct (take_pending id l) as [[p' rest']|]; [|discriminate].
      injection H as <- <-. specialize (IH p' rest' eq_refl).
      simpl. destruct (is_cs_mutation p'), (is_cs_mutation q); simpl;
        congruence.
Qed.

(** [CartSystem]'s two mutations. *)
Lemma CartSystem_updateLineItem_busy input w :
  isUpdating (cartSystem w) = true →
  CartSystem_updateLineItem input w = (Normal (Returned VUndefined), w).
Proof. intros H. unfold CartSystem_updateLineItem. unfold_m. by rewrite H. Qed.

Lemma CartSystem_removeLineItem_busy line w :
  isUpdating (cartSystem w) = true →
  CartSystem_removeLineItem line w = (Normal (Returned VUndefined), w).
Proof. intros H. unfold CartSystem_removeLineItem. unfold_m. by rewrite H. Qed.

Lemma CartSystem_updateLineItem_idle input el w :
  isUpdating (cartSystem w) = false →
  inputs (host w) !! input = Some el →
  CartSystem_updateLineItem input w =
    (Normal Awaiting,
     with_host
       (host_issue
          {| rid := fresh (host w);
             req := change_request (dataset_line el) (value el);
             cont := K_CS_updateLineItem input (dataset_line el) |})
       (with_cartSystem (λ s, {| cart := cart s; isUpdating := true |}) w)).
Proof.
  intros H Hel. unfold CartSystem_updateLineItem, CartSystem_set_isUpdating,
    fetch. unfold_m. rewrite H. simpl. by rewrite Hel.
Qed.

Lemma CartSystem_removeLineItem_idle line w :
  isUpdating (cartSystem w) = false →
  CartSystem_removeLineItem line w =
    (Normal Awaiting,
     with_host
       (host_issue
          {| rid := fresh (host w);
             req := change_request line (Some 0);
             cont := K_CS_removeLineItem |})
       (with_cartSystem (λ s, {| cart := cart s; isUpdating := true |}) w)).
Proof.
  intros H. unfold CartSystem_removeLineItem, CartSystem_set_isUpdating,
    fetch. unfold_m. by rewrite H.
Qed.

Lemma exec_updateLineItem_idle input el w :
  isUpdating (cartSystem w) = false →
  inputs (host w) !! input = Some el →
  exec (CS_updateLineItem input) w
  = with_host
      (host_issue
         {| rid := fresh (host w);
            req := change_request (dataset_line el) (value el);
            cont := K_CS_updateLineItem input (dataset_line el) |})
      (with_cartSystem (λ s, {| cart := cart s; isUpdating := true |}) w).
Proof.
  intros H Hel. simpl. rewrite Hel. unfold run_async.
  by rewrite (CartSystem_updateLineItem_idle input el).
Qed.

Lemma exec_updateLineItem_busy input el w :
  isUpdating (cartSystem w) = true →
  inputs (host w) !! input = Some el →
  exec (CS_updateLineItem input) w
  = with_host (host_settle OpCS_updateLineItem (Normal VUndefined)) w.
Proof.
  intros H Hel. simpl. rewrite Hel. unfold run_async.
  by rewrite CartSystem_updateLineItem_busy.
Qed.

(** After its response, [CartSystem] is idle again and has issued no
    mutation of its own. *)
Lemma CartSystem_updateLineItem_resume_view input line r w :
  view (snd (CartSystem_updateLineItem_resume input line r w))
  = (false, cs_mutations_in_flight w, timers (host w),
     debounceTimer (cartDrawer w)).
Proof. destruct r as [m|[d|m]|s m]; frame. Qed.

Lemma CartSystem_removeLineItem_resume_view r w :
  view (snd (CartSystem_removeLineItem_resume r w))
  = (false, cs_mutations_in_flight w, timers (host w),
     debounceTimer (cartDrawer w)).
Proof. destruct r as [m|[d|m]|s m]; frame. Qed.

Lemma cs_inv_exec_updateLineItem input w :
  cs_inv w → cs_inv (exec (CS_updateLineItem input) w).
Proof.
  intros [H1 H2]. simpl. destruct (inputs (host w) !! input) as [el|] eqn:E.
  2: done.
  unfold run_async. destruct (isUpdating (cartSystem w)) eqn:B.
  - rewrite CartSystem_updateLineItem_busy by done.
    apply (cs_inv_view w); [reflexivity | split; [done | congruence]].
  - rewrite (CartSystem_updateLineItem_idle input el) by done.
    unfold cs_inv, cs_mutations_in_flight in *. simpl.
    rewrite List.filter_app, (H2 eq_refl). simpl. split; [lia | done].
Qed.

Lemma cs_inv_exec_removeLineItem line w :
  cs_inv w → cs_inv (exec (CS_removeLineItem line) w).
Proof.
  intros [H1 H2]. simpl.
  unfold run_async. destruct (isUpdating (cartSystem w)) eqn:B.
  - rewrite CartSystem_removeLineItem_busy by done.
    apply (cs_inv_view w); [reflexivity | split; [done | congruence]].
  - rewrite CartSystem_removeLineItem_idle by done.
    unfold cs_inv, cs_mutations_in_flight in *. simpl.
    rewrite List.filter_app, (H2 eq_refl). simpl. split; [lia | done].
Qed.

(** The debounced handlers arm one timer and remember it. *)
Lemma view_handleQuantityChange line v w :
  view (snd (CartDrawer_handleQuantityChange line v w))
  = (isUpdating (cartSystem w), cs_mutations_in_flight w,
     List.filter
       (λ t, match debounceTimer (cartDrawer w) with
             | Some i => negb (tid t =? i)%nat
             | None => true
             end) (timers (host w))
     ++ [{| tid := fresh (host w); due := now (host w) + 500;
            task := TaskUpdateCartItem line (js_or v 0) |}],
     Some (fresh (host w))).
Proof.
  frame; repeat f_equal.
  match goal with |- ?l = _ => induction l; simpl; congruence end.
Qed.

Lemma view_handleNoteChange text w :
  view (snd (CartDrawer_handleNoteChange text w))
  = (isUpdating (cartSystem w), cs_mutations_in_flight w,
     List.filter
       (λ t, match debounceTimer (cartDrawer w) with
             | Some i => negb (tid t =? i)%nat
             | None => true
             end) (timers (host w))
     ++ [{| tid := fresh (host w); due := now (host w) + 500;
            task := TaskSaveNote text |}],
     Some (fresh (host w))).
Proof.
  frame; repeat f_equal.
  match goal with |- ?l = _ => induction l; simpl; congruence end.
Qed.

Lemma timers_inv_cleared w :
  timers_inv w →
  List.filter
    (λ t, match debounceTimer (cartDrawer w) with
          | Some i => negb (tid t =? i)%nat
          | None => true
          end) (timers (host w)) = [].
Proof.
  unfold timers_inv. intros H.
  induction (timers (host w)) as [|t l IH]; [done|].
  simpl. rewrite (H t) by left. rewrite Nat.eqb_refl. simpl.
  rewrite (H t) in IH by left. apply IH. intros t' Ht'.
  rewrite <- (H t) by left. apply H. by right.
Qed.

(** Timers firing. *)
Lemma view_fire t w : view (fire t w) = view w.
Proof.
  unfold fire. destruct (task t); rewrite view_run_async.
  - apply view_CartDrawer_updateCartItem.
  - apply view_CartDrawer_saveNote.
Qed.

Lemma view_fire_all (l : list Timer) w :
  view (foldl (λ acc tm, fire tm acc) w l) = view w.
Proof.
  revert w. induction l as [|t l IH]; intros w; simpl; [done|].
  rewrite IH. apply view_fire.
Qed.

Lemma view_tick dt w :
  view (tick dt w)
  = (isUpdating (cartSystem w), cs_mutations_in_flight w,
     List.filter (λ tm, negb (is_due (now (host w) + dt) tm))
                 (timers (host w)),
     debounceTimer (cartDrawer w)).
Proof. unfold tick. rewrite view_fire_all. reflexivity. Qed.

Lemma view_resume k r w :
  view (snd (snd (resume k r) w))
  = if is_cs_cont k
    then (false, cs_mutations_in_flight w, timers (host w),
          debounceTimer (cartDrawer w))
    else view w.
Proof.
  destruct k; try match goal with c : DrawerCaller |- _ => destruct c end;
    simpl;
    auto using CartSystem_updateLineItem_resume_view,
      view_handleUpsellAdd_resume, view_handleUpsellAdd_resume2,
      view_addMultipleToCart_resume,
      CartSystem_removeLineItem_resume_view,
      view_reloadMiniCartSection_resume, view_CartDrawer_init_resume,
      view_CartDrawer_updateCartItem_resume,
      view_CartDrawer_updateCartItem_resume2,
      view_CartDrawer_saveNote_resume, view_addToCart_resume,
      view_updateCartItem_resume, view_removeFromCart_resume,
      view_updateCartNote_resume, view_getCartData_resume,
      view_updateCartCount_resume.
Qed.

Lemma cs_inv_deliver id r w : cs_inv w → cs_inv (deliver id r w).
Proof.
  intros [H1 H2]. unfold deliver.
  destruct (take_pending id (inflight (host w))) as [[p rest]|] eqn:E;
    [|by split].
  pose proof (take_pending_cs _ _ _ _ E) as Hp.
  unfold cs_inv. unfold cs_mutations_in_flight at 1 2.
  pose proof (view_resume (cont p) r (with_host (host_set_inflight rest) w))
    as Hv.
  rewrite <- view_run_async with (o := fst (resume (cont p) r)) in Hv.
  unfold view at 1 in Hv.
  change (is_cs_cont (cont p)) with (is_cs_mutation p) in Hv.
  unfold cs_mutations_in_flight in *.
  destruct (is_cs_mutation p); injection Hv as -> -> _ _;
    unfold cs_mutations_in_flight; simpl.
  - split; [lia | intros _].
    destruct (List.filter is_cs_mutation rest); [done | simpl in *; lia].
  - rewrite Hp. by split.
Qed.

Lemma timers_inv_deliver id r w : timers_inv w → timers_inv (deliver id r w).
Proof.
  intros H. unfold deliver.
  destruct (take_pending id (inflight (host w))) as [[p rest]|]; [|done].
  pose proof (view_resume (cont p) r (with_host (host_set_inflight rest) w))
    as Hv.
  rewrite <- view_run_async with (o := fst (resume (cont p) r)) in Hv.
  unfold timers_inv. unfold view at 1 in Hv.
  destruct (is_cs_cont (cont p)); injection Hv as _ _ -> ->; exact H.
Qed.

Lemma timers_inv_tick dt w : timers_inv w → timers_inv (tick dt w).
Proof.
  intros H. pose proof (view_tick dt w) as Hv. unfold view at 1 in Hv.
  injection Hv as _ _ Ht Hd. unfold timers_inv. rewrite Ht, Hd.
  intros t Hin. apply H. apply list_elem_of_In in Hin.
  apply List.filter_In in Hin as [Hin _]. by apply list_elem_of_In.
Qed.

Lemma timers_inv_rearmed (m : M unit) w tm :
  timers_inv w →
  view (snd (m w))
  = (isUpdating (cartSystem w), cs_mutations_in_flight w,
     List.filter
       (λ t, match debounceTimer (cartDrawer w) with
             | Some i => negb (tid t =? i)%nat
             | None => true
             end) (timers (host w)) ++ [tm],
     Some (tid tm)) →
  timers_inv (snd (m w)).
Proof.
  intros H Hv. rewrite (timers_inv_cleared w H) in Hv.
  unfold view at 1 in Hv. injection Hv as _ _ Ht Hd.
  unfold timers_inv. rewrite Ht, Hd. simpl.
  intros t Hin. apply list_elem_of_singleton in Hin. by subst.
Qed.

Lemma cs_inv_view_part w w' :
  fst (fst (view w)) = fst (fst (view w')) → cs_inv w → cs_inv w'.
Proof.
  unfold view, cs_inv. simpl. intros Hv [H1 H2].
  injection Hv as Hu Hc. rewrite <- Hu, <- Hc. done.
Qed.

(** Every step of the event loop keeps both invariants. *)
Lemma cs_inv_exec a w : cs_inv w → cs_inv (exec a w).
Proof.
  intros H. destruct a;
    try (apply cs_inv_exec_updateLineItem; exact H);
    try (apply cs_inv_exec_removeLineItem; exact H);
    try (apply cs_inv_deliver; exact H);
    (apply (cs_inv_view_part w); [symmetry | exact H]);
    cbv beta iota delta [exec run_sync]; autorewrite with view;
    rewrite ?view_handleQuantityChange, ?view_handleNoteChange, ?view_tick;
    reflexivity.
Qed.

Lemma timers_inv_CartSystem_updateLineItem input w :
  timers_inv w → timers_inv (snd (CartSystem_updateLineItem input w)).
Proof. unfold timers_inv. frame; auto. Qed.

Lemma timers_inv_CartSystem_removeLineItem line w :
  timers_inv w → timers_inv (snd (CartSystem_removeLineItem line w)).
Proof. unfold timers_inv. frame; auto. Qed.

Lemma timers_inv_run_async o (m : M Outcome) w :
  timers_inv (snd (m w)) → timers_inv (run_async o m w).
Proof.
  apply timers_inv_view. by rewrite view_run_async.
Qed.

Lemma timers_inv_exec a w : timers_inv w → timers_inv (exec a w).
Proof.
  intros H. destruct a; cbv beta iota delta [exec run_sync];
  lazymatch goal with
  | |- timers_inv (deliver _ _ _) => by apply timers_inv_deliver
  | |- timers_inv (tick _ _) => by apply timers_inv_tick
  | |- timers_inv (snd (CartDrawer_handleQuantityChange ?l ?v _)) =>
      apply (timers_inv_rearmed (CartDrawer_handleQuantityChange l v) w
               _ H (view_handleQuantityChange l v w))
  | |- timers_inv (snd (CartDrawer_handleNoteChange ?t _)) =>
      apply (timers_inv_rearmed (CartDrawer_handleNoteChange t) w
               _ H (view_handleNoteChange t w))
  | |- timers_inv (run_async _ (CartSystem_removeLineItem _) _) =>
      apply timers_inv_run_async;
      by apply timers_inv_CartSystem_removeLineItem
  | |- timers_inv (match ?x with _ => _ end) =>
      destruct x; [|done];
      apply timers_inv_run_async;
      by apply timers_inv_CartSystem_updateLineItem
  | |- _ =>
      apply (timers_inv_view w);
      [symmetry; autorewrite with view; reflexivity | done]
  end.
Qed.

Lemma cs_inv_boot t0 els mini : cs_inv (boot t0 els mini).
Proof. split; [apply Nat.le_0_l | reflexivity]. Qed.

Lemma timers_inv_boot t0 els mini : timers_inv (boot t0 els mini).
Proof. intros t Hin. by apply elem_of_nil in Hin. Qed.

Lemma cs_inv_run tr w : cs_inv w → cs_inv (run tr w).
Proof.
  revert w. induction tr as [|a tr IH]; intros w H; [done|].
  apply IH. by apply cs_inv_exec.
Qed.

Lemma timers_inv_run tr w : timers_inv w → timers_inv (run tr w).
Proof.
  revert w. induction tr as [|a tr IH]; intros w H; [done|].
  apply IH. by apply timers_inv_exec.
Qed.

Lemma reachable_cs_inv w : reachable w → cs_inv w.
Proof.
  intros (t0 & els & mini & tr & ->). apply cs_inv_run, cs_inv_boot.
Qed.

Lemma reachable_timers_inv w : reachable w → timers_inv w.
Proof.
  intros (t0 & els & mini & tr & ->). apply timers_inv_run, timers_inv_boot.
Qed.

Lemma reachable_exec a w : reachable w → reachable (exec a w).
Proof.
  intros (t0 & els & mini & tr & ->). exists t0, els, mini, (tr ++ [a]).
  unfold run. by rewrite foldl_app.
Qed.

Lemma reachable_run tr w : reachable w → reachable (run tr w).
Proof.
  revert w. induction tr as [|a tr IH]; intros w H; [done|].
  apply IH. by apply reachable_exec.
Qed.

Lemma reachable_boot t0 els mini : reachable (boot t0 els mini).
Proof. by exists t0, els, mini, []. Qed.

End Invariants.

(** ** Request ids *)

Ltac ids_frame :=
  intros; unfold_scripts; unfold_m;
  unfold ids_inv, run_async, run_sync in *;
  split_cases;
  repeat (apply Forall_app; split);
  try (eapply Forall_impl; [eassumption | simpl; intros; lia]);
  try (apply Forall_singleton; simpl; lia).

Section Ids.

Implicit Types (w : World) (r : Response).

Lemma ids_inv_resume k r w :
  ids_inv w → ids_inv (snd (snd (resume k r) w)).
Proof.
  destruct k; try match goal with c : DrawerCaller |- _ => destruct c end;
    destruct r as [m|[d|m]|s [m|]]; simpl; ids_frame.
Qed.

Lemma ids_inv_run_async o (m : M Outcome) w :
  ids_inv (snd (m w)) → ids_inv (run_async o m w).
Proof. unfold run_async. by destruct (m w) as [[[|v]|e] w']. Qed.

Lemma take_pending_Forall (P : Pending → Prop) id (l : list Pending) p rest :
  take_pending id l = Some (p, rest) → Forall P l → Forall P rest.
Proof.
  revert p rest. induction l as [|q l IH]; intros p rest H Hall; simpl in H.
  - discriminate.
  - apply Forall_cons in Hall as [Hq Hall].
    destruct (rid q =? id)%nat.
    + by injection H as <- <-.
    + destruct (take_pending id l) as [[p' rest']|]; [|discriminate].
      injection H as <- <-. apply Forall_cons. split; [done|].
      by apply (IH p').
Qed.

Lemma ids_inv_deliver id r w : ids_inv w → ids_inv (deliver id r w).
Proof.
  intros H. unfold deliver.
  destruct (take_pending id (inflight (host w))) as [[p rest]|] eqn:E;
    [|done].
  apply ids_inv_run_async, ids_inv_resume.
  exact (take_pending_Forall _ _ _ _ _ E H).
Qed.

Lemma ids_inv_fire t w : ids_inv w → ids_inv (fire t w).
Proof. unfold fire. destruct (task t); ids_frame. Qed.

Lemma ids_inv_fire_all (l : list Timer) w :
  ids_inv w → ids_inv (foldl (λ acc tm, fire tm acc) w l).
Proof.
  revert w. induction l as [|t l IH]; intros w H; simpl; [done|].
  by apply IH, ids_inv_fire.
Qed.

Lemma ids_inv_tick dt w : ids_inv w → ids_inv (tick dt w).
Proof. intros H. unfold tick. by apply ids_inv_fire_all. Qed.

Lemma ids_inv_exec a w : ids_inv w → ids_inv (exec a w).
Proof.
  intros H. destruct a;
    try (by apply ids_inv_deliver); try (by apply ids_inv_tick);
    simpl; ids_frame.
Qed.

Lemma ids_inv_run tr w : ids_inv w → ids_inv (run tr w).
Proof.
  revert w. induction tr as [|a tr IH]; intros w H; [done|].
  apply IH. by apply ids_inv_exec.
Qed.

Lemma ids_inv_boot t0 els mini : ids_inv (boot t0 els mini).
Proof.
  unfold ids_inv. simpl.
  apply Forall_cons; split; [simpl; lia|].
  apply Forall_singleton. simpl. lia.
Qed.

Lemma reachable_ids_inv w : reachable w → ids_inv w.
Proof.
  intros (t0 & els & mini & tr & ->). apply ids_inv_run, ids_inv_boot.
Qed.

(** The response to the request issued last finds that request. *)
Lemma take_pending_last (l : list Pending) (p : Pending) :
  Forall (λ q, (rid q < rid p)%nat) l →
  take_pending (rid p) (l ++ [p]) = Some (p, l).
Proof.
  induction l as [|q l IH]; intros H; simpl.
  - by rewrite Nat.eqb_refl.
  - apply Forall_cons in H as [Hq H].
    destruct (Nat.eqb_spec (rid q) (rid p)); [lia|].
    by rewrite (IH H).
Qed.

(** The response to the request issued last resumes the code waiting for
    it, the request taken out of the in-flight list. *)
Lemma deliver_last (l : list Pending) (p : Pending) id r w :
  id = rid p →
  inflight (host w) = l ++ [p] →
  Forall (λ q, (rid q < rid p)%nat) l →
  exec (Respond id r) w
  = run_async (fst (resume (cont p) r)) (snd (resume (cont p) r))
      (with_host (host_set_inflight l) w).
Proof.
  intros -> Hl Hids. simpl. unfold deliver.
  by rewrite Hl, (take_pending_last l p Hids).
Qed.

Lemma ids_inv_next w :
  ids_inv w →
  Forall (λ q, (rid q < S (fresh (host w)))%nat) (inflight (host w)).
Proof.
  intros H. eapply Forall_impl; [exact H | simpl; intros; lia].
Qed.

(** Recording how a promise settled changes neither the carts nor the
    log of events. *)
Lemma run_async_cart o (m : M Outcome) w :
  cart (cartSystem (run_async o m w)) = cart (cartSystem (snd (m w))).
Proof. unfold run_async. by destruct (m w) as [[[|v]|e] w']. Qed.

Lemma run_async_cartData o (m : M Outcome) w :
  cartData (cartDrawer (run_async o m w)) = cartData (cartDrawer (snd (m w))).
Proof. unfold run_async. by destruct (m w) as [[[|v]|e] w']. Qed.

Lemma run_async_events o (m : M Outcome) w :
  events (host (run_async o m w)) = events (host (snd (m w))).
Proof. unfold run_async. by destruct (m w) as [[[|v]|e] w']. Qed.

End Ids.

(** Logs grow at the end; these close goals about what was added. *)
Ltac since :=
  unfold events_since, issued_since, settled_since; simpl;
  rewrite <- ?app_assoc; rewrite ?drop_app_length, ?drop_all; simpl.

(** ** Single flight *)

(** C1, as amended: on every page the scripts can reach, at most one
    mutation request issued by [CartSystem] ([updateLineItem] or
    [removeLineItem]) is in flight, and none is while [isUpdating] is
    false.  The guard is [CartSystem]'s own: it does not cover the requests
    of [CartDrawer] and [cartUtils]. *)
Theorem CartSystem_single_flight (t0 : Z) (els : list InputEl) (mini : bool)
    (tr : list Action) :
  let w := run tr (boot t0 els mini) in
  (length (cs_mutations_in_flight w) ≤ 1)%nat ∧
  (isUpdating (cartSystem w) = false → cs_mutations_in_flight w = []).
Proof. apply cs_inv_run, cs_inv_boot. Qed.

(** C1, as worded, fails: a quantity change through [CartSystem], a step
    up in the drawer and a [cartUtils.updateCartItem] put three POSTs to
    /cart/change.js in flight together. *)
Lemma three_mutations_in_flight :
  length (mutations_in_flight
            (run [CS_updateLineItem 0%nat;
                  CD_handleQuantityIncrease 2 (Some 1);
                  CU_updateCartItem 1 5] demo_page)) = 3%nat ∧
  ¬ single_flight_everywhere.
Proof.
  split; [reflexivity |]. intros H.
  specialize (H (run [CS_updateLineItem 0%nat;
                      CD_handleQuantityIncrease 2 (Some 1);
                      CU_updateCartItem 1 5] demo_page)).
  assert (Hr : reachable (run [CS_updateLineItem 0%nat;
                               CD_handleQuantityIncrease 2 (Some 1);
                               CU_updateCartItem 1 5] demo_page))
    by apply reachable_run, reachable_boot.
  apply H in Hr. vm_compute in Hr. lia.
Qed.

(** ** No optimistic prediction *)

Lemma reachable_loaded_page : reachable loaded_page.
Proof. apply reachable_run, reachable_boot. Qed.

(** C2, as worded, fails: on the loaded page the shopper changes line 1
    from 1 to 5; until the response nothing shows 5: no event is
    dispatched and the carts the components paint are unchanged. *)
Lemma no_prediction_is_handed :
  let w' := exec (CS_updateLineItem 0) loaded_page in
  events_since loaded_page w' = [] ∧
  cart (cartSystem w') = Some demo_cart ∧
  cartData (cartDrawer w') = None ∧
  ¬ optimistic_prediction.
Proof.
  split; [reflexivity | split; [reflexivity | split; [reflexivity |]]].
  intros H.
  specialize (H loaded_page 0%nat {| dataset_line := 1; value := Some 5 |} 5
                reachable_loaded_page eq_refl eq_refl eq_refl).
  destruct H as [(n & c & Hin & _) | [(c & it & Hc & Hi & Hq)
                                     | (c & it & Hc & _)]].
  - vm_compute in Hin. by apply elem_of_nil in Hin.
  - vm_compute in Hc. injection Hc as <-.
    vm_compute in Hi. injection Hi as <-. vm_compute in Hq. discriminate.
  - vm_compute in Hc. discriminate.
Qed.

(** C2, as amended: a quantity change or a removal only issues its
    request, the POST to /cart/change.js; before the response no event is
    dispatched and no cart, input or toast changes.  When the response is
    OK, [CartSystem] stores the server's cart and dispatches it in one
    [cart:updated]; the drawer refetches /cart.js and then stores and
    dispatches what the server returned. *)
Theorem no_prediction_then_server_cart (w : World) (input : nat)
    (el : InputEl) (data : Cart) :
  inputs (host w) !! input = Some el →
  isUpdating (cartSystem w) = false →
  let w1 := exec (CS_updateLineItem input) w in
  (events_since w w1 = [] ∧
   cart (cartSystem w1) = cart (cartSystem w) ∧
   cartDrawer w1 = cartDrawer w ∧
   inputs (host w1) = inputs (host w) ∧
   toasts (host w1) = toasts (host w) ∧
   inflight (host w1)
   = inflight (host w)
     ++ [{| rid := fresh (host w);
            req := change_request (dataset_line el) (value el);
            cont := K_CS_updateLineItem input (dataset_line el) |}]) ∧
  (∀ w', let w2 := snd (CartSystem_updateLineItem_resume
                          input (dataset_line el) (HttpOk (Json data)) w') in
         cart (cartSystem w2) = Some data ∧
         events_since w' w2 = [EvUpdated None (Some data)]) ∧
  (∀ line,
     let w1' := exec (CS_removeLineItem line) w in
     events_since w w1' = [] ∧
     cart (cartSystem w1') = cart (cartSystem w) ∧
     cartDrawer w1' = cartDrawer w ∧
     inputs (host w1') = inputs (host w) ∧
     toasts (host w1') = toasts (host w)) ∧
  (∀ w', let w2 := snd (CartSystem_removeLineItem_resume
                          (HttpOk (Json data)) w') in
         cart (cartSystem w2) = Some data ∧
         events_since w' w2 = [EvUpdated None (Some data)]) ∧
  (∀ line qty,
     let w1' := snd (CartDrawer_updateCartItem line qty w) in
     events_since w w1' = [] ∧ cartDrawer w1' = cartDrawer w ∧
     cartSystem w1' = cartSystem w) ∧
  (∀ w' body,
     let w2 := snd (CartDrawer_updateCartItem_resume (HttpOk body) w') in
     events_since w' w2 = [] ∧ cartData (cartDrawer w2) = cartData (cartDrawer w')) ∧
  (∀ w', let w3 := snd (CartDrawer_updateCartItem_resume2
                          (HttpOk (Json data)) w') in
         cartData (cartDrawer w3) = Some data ∧
         events_since w' w3
         = [EvUpdated (Some (js_or (Some (item_count data)) 0)) (Some data)]) ∧
  (* the requests *)
  issued_since w w1 = [change_request (dataset_line el) (value el)] ∧
  (∀ line,
     let w1' := exec (CS_removeLineItem line) w in
     inflight (host w1')
     = inflight (host w)
       ++ [{| rid := fresh (host w); req := change_request line (Some 0);
              cont := K_CS_removeLineItem |}] ∧
     issued_since w w1' = [change_request line (Some 0)]) ∧
  (∀ line qty,
     let res := CartDrawer_updateCartItem line qty w in
     fst res = Normal Awaiting ∧
     inflight (host (snd res))
     = inflight (host w)
       ++ [{| rid := fresh (host w); req := change_request line (Some qty);
              cont := K_CD_updateCartItem |}] ∧
     issued_since w (snd res) = [change_request line (Some qty)]) ∧
  (∀ w' body,
     isLoading (cartDrawer w') = false →
     let res := CartDrawer_updateCartItem_resume (HttpOk body) w' in
     fst res = Normal Awaiting ∧
     inflight (host (snd res))
     = inflight (host w')
       ++ [{| rid := fresh (host w'); req := cart_js;
              cont := K_CD_updateCart FromUpdateCartItem |}] ∧
     issued_since w' (snd res) = [cart_js]) ∧
  (* request and response together *)
  (reachable w →
   let w2 := exec (Respond (fresh (host w)) (HttpOk (Json data))) w1 in
   cart (cartSystem w2) = Some data ∧
   events_since w1 w2 = [EvUpdated None (Some data)]) ∧
  (∀ line,
     reachable w →
     let w1' := exec (CS_removeLineItem line) w in
     let w2 := exec (Respond (fresh (host w)) (HttpOk (Json data))) w1' in
     cart (cartSystem w2) = Some data ∧
     events_since w1' w2 = [EvUpdated None (Some data)]) ∧
  (∀ w' line qty body,
     reachable w' →
     isLoading (cartDrawer w') = false →
     let w1' := run_async OpCD_updateCartItem
                  (CartDrawer_updateCartItem line qty) w' in
     let w2 := exec (Respond (fresh (host w')) (HttpOk body)) w1' in
     let w3 := exec (Respond (S (fresh (host w'))) (HttpOk (Json data))) w2 in
     issued_since w' w2 = [change_request line (Some qty); cart_js] ∧
     events_since w' w2 = [] ∧
     cartData (cartDrawer w2) = cartData (cartDrawer w') ∧
     cartData (cartDrawer w3) = Some data ∧
     events_since w2 w3
     = [EvUpdated (Some (js_or (Some (item_count data)) 0)) (Some data)]).
Proof.
  intros Hel Hidle. cbv zeta.
  rewrite (exec_updateLineItem_idle input el w Hidle Hel).
  assert (∀ line, exec (CS_removeLineItem line) w
    = with_host
        (host_issue {| rid := fresh (host w);
                       req := change_request line (Some 0);
                       cont := K_CS_removeLineItem |})
        (with_cartSystem (λ s, {| cart := cart s; isUpdating := true |}) w))
    as Hrm.
  { intros line. simpl. unfold run_async.
    by rewrite CartSystem_removeLineItem_idle. }
  assert (∀ w', cart (cartSystem (snd (CartSystem_updateLineItem_resume
                   input (dataset_line el) (HttpOk (Json data)) w')))
                = Some data ∧
                events_since w' (snd (CartSystem_updateLineItem_resume
                   input (dataset_line el) (HttpOk (Json data)) w'))
                = [EvUpdated None (Some data)]) as Hup.
  { intros w'. split; unfold_scripts; unfold_m; split_cases;
      first [reflexivity | by since]. }
  assert (∀ w', cart (cartSystem (snd (CartSystem_removeLineItem_resume
                   (HttpOk (Json data)) w'))) = Some data ∧
                events_since w' (snd (CartSystem_removeLineItem_resume
                   (HttpOk (Json data)) w'))
                = [EvUpdated None (Some data)]) as Hdel.
  { intros w'. split; unfold_scripts; unfold_m; split_cases;
      first [reflexivity | by since]. }
  assert (∀ w', cartData (cartDrawer (snd (CartDrawer_updateCartItem_resume2
                   (HttpOk (Json data)) w'))) = Some data ∧
                events_since w' (snd (CartDrawer_updateCartItem_resume2
                   (HttpOk (Json data)) w'))
                = [EvUpdated (Some (js_or (Some (item_count data)) 0))
                             (Some data)]) as Hdr.
  { intros w'. split; unfold_scripts; unfold_m; split_cases;
      first [reflexivity | by since]. }
  split. { repeat split; by since. }
  split. { exact Hup. }
  split. { intros line. rewrite Hrm. repeat split; by since. }
  split. { exact Hdel. }
  split. { intros line qty. repeat split; by since. }
  split.
  { intros w' body. split; unfold_scripts; unfold_m; split_cases;
      first [reflexivity | by since]. }
  split. { exact Hdr. }
  split. { by since. }
  split. { intros line. rewrite Hrm. split; [reflexivity | by since]. }
  split.
  { intros line qty. split; [reflexivity | split; [reflexivity | by since]]. }
  split.
  { intros w' body Hl. unfold_scripts; unfold_m. rewrite Hl. simpl.
    split; [reflexivity | split; [reflexivity | by since]]. }
  split.
  { intros Hr.
    rewrite (deliver_last (inflight (host w))
               {| rid := fresh (host w);
                  req := change_request (dataset_line el) (value el);
                  cont := K_CS_updateLineItem input (dataset_line el) |});
      [| reflexivity | reflexivity | exact (reachable_ids_inv w Hr)].
    cbn [resume cont fst snd]. unfold events_since.
    rewrite run_async_cart, run_async_events.
    split; [apply Hup | exact (proj2 (Hup _))]. }
  split.
  { intros line Hr. rewrite Hrm.
    rewrite (deliver_last (inflight (host w))
               {| rid := fresh (host w);
                  req := change_request line (Some 0);
                  cont := K_CS_removeLineItem |});
      [| reflexivity | reflexivity | exact (reachable_ids_inv w Hr)].
    cbn [resume cont fst snd]. unfold events_since.
    rewrite run_async_cart, run_async_events.
    split; [apply Hdel | exact (proj2 (Hdel _))]. }
  intros w' line qty body Hr Hl.
  change (run_async OpCD_updateCartItem (CartDrawer_updateCartItem line qty) w')
    with (with_host
            (host_issue {| rid := fresh (host w');
                           req := change_request line (Some qty);
                           cont := K_CD_updateCartItem |}) w').
  rewrite (deliver_last (inflight (host w'))
             {| rid := fresh (host w');
                req := change_request line (Some qty);
                cont := K_CD_updateCartItem |});
    [| reflexivity | reflexivity | exact (reachable_ids_inv w' Hr)].
  cbn [resume cont fst snd].
  set (w0 := with_host (host_set_inflight (inflight (host w')))
               (with_host
                  (host_issue {| rid := fresh (host w');
                                 req := change_request line (Some qty);
                                 cont := K_CD_updateCartItem |}) w')).
  assert (run_async OpCD_updateCartItem
            (CartDrawer_updateCartItem_resume (HttpOk body)) w0
          = with_host
              (host_issue {| rid := S (fresh (host w')); req := cart_js;
                             cont := K_CD_updateCart FromUpdateCartItem |})
              (with_cartDrawer
                 (λ d, {| isLoading := true; cartData := cartData d;
                          debounceTimer := debounceTimer d |}) w0)) as Hw2.
  { unfold run_async. unfold_scripts; unfold_m.
    change (isLoading (cartDrawer w0)) with (isLoading (cartDrawer w')).
    rewrite Hl. reflexivity. }
  rewrite Hw2.
  split; [by since |]. split; [by since |]. split; [reflexivity |].
  rewrite (deliver_last (inflight (host w'))
             {| rid := S (fresh (host w')); req := cart_js;
                cont := K_CD_updateCart FromUpdateCartItem |});
    [| reflexivity | reflexivity
     | exact (ids_inv_next w' (reachable_ids_inv w' Hr))].
  cbn [resume cont fst snd]. unfold events_since.
  rewrite run_async_cartData, run_async_events.
  split; [apply Hdr | exact (proj2 (Hdr _))].
Qed.

Lemma no_prediction_then_server_cart_witness :
  inputs (host loaded_page) !! 0%nat
  = Some {| dataset_line := 1; value := Some 5 |} ∧
  isUpdating (cartSystem loaded_page) = false ∧
  events_since loaded_page (exec (CS_updateLineItem 0) loaded_page) = [] ∧
  issued_since loaded_page (exec (CS_updateLineItem 0) loaded_page)
  = [change_request 1 (Some 5)].
Proof.
  pose proof (no_prediction_then_server_cart loaded_page 0%nat
                {| dataset_line := 1; value := Some 5 |} demo_cart
                eq_refl eq_refl) as H.
  destruct H as (H1 & _ & _ & _ & _ & _ & _ & H8 & _).
  split; [reflexivity | split; [reflexivity |]].
  split; [exact (proj1 H1) | exact H8].
Defined.

(** ** Requests raised while [CartSystem] is busy *)

(** C3, as worded, fails: on the loaded page line 1 is changed and, while
    that request is in flight, line 2 is changed too; after the first
    response the request for line 2 has not been issued. *)
Lemma second_edit_is_not_issued :
  issued_since loaded_page
    (run [CS_updateLineItem 0; CS_updateLineItem 1;
          Respond 3 (HttpOk (Json demo_cart))] loaded_page)
  = [change_request 1 (Some 5); {| endpoint := CartJs; body := NoBody |}] ∧
  ¬ queued_behind.
Proof.
  split; [reflexivity |]. intros H.
  specialize (H loaded_page 0%nat 1%nat
                {| dataset_line := 1; value := Some 5 |}
                {| dataset_line := 2; value := Some 1 |} demo_cart
                reachable_loaded_page eq_refl eq_refl eq_refl).
  vm_compute in H.
  repeat (apply elem_of_cons in H as [H|H]; [discriminate|]).
  by apply elem_of_nil in H.
Qed.

(** C3, as amended: while a mutation of [CartSystem] is in flight, a further
    [updateLineItem] or [removeLineItem] returns at once: the page is left
    as it was (only the returned promise is recorded), so no request is
    issued for it and nothing is queued for later. *)
Theorem CartSystem_drops_while_in_flight (w : World) (input : nat) (line : Z) :
  reachable w →
  cs_mutations_in_flight w ≠ [] →
  is_Some (inputs (host w) !! input) →
  exec (CS_updateLineItem input) w
  = with_host (host_settle OpCS_updateLineItem (Normal VUndefined)) w ∧
  exec (CS_removeLineItem line) w
  = with_host (host_settle OpCS_removeLineItem (Normal VUndefined)) w.
Proof.
  intros Hr Hbusy [el Hel].
  assert (isUpdating (cartSystem w) = true) as Hflag.
  { destruct (reachable_cs_inv w Hr) as [_ Hidle].
    destruct (isUpdating (cartSystem w)); [done|]. by destruct Hbusy; auto. }
  split; simpl.
  - rewrite Hel. unfold run_async.
    by rewrite CartSystem_updateLineItem_busy.
  - unfold run_async. by rewrite CartSystem_removeLineItem_busy.
Qed.

Lemma CartSystem_drops_while_in_flight_witness :
  let w := exec (CS_updateLineItem 0) loaded_page in
  reachable w ∧
  cs_mutations_in_flight w ≠ [] ∧
  is_Some (inputs (host w) !! 1%nat) ∧
  exec (CS_updateLineItem 1) w
  = with_host (host_settle OpCS_updateLineItem (Normal VUndefined)) w.
Proof.
  assert (reachable (exec (CS_updateLineItem 0) loaded_page)) as Hr
    by apply reachable_exec, reachable_loaded_page.
  assert (cs_mutations_in_flight (exec (CS_updateLineItem 0) loaded_page) ≠ [])
    as Hb by discriminate.
  assert (is_Some (inputs (host (exec (CS_updateLineItem 0) loaded_page))
                     !! 1%nat)) as Hi by (eexists; reflexivity).
  split; [exact Hr | split; [exact Hb | split; [exact Hi |]]].
  apply (CartSystem_drops_while_in_flight _ 1%nat 0 Hr Hb Hi).
Defined.

(** ** The cached cart of [cartUtils] *)

Section Cache.

Implicit Types (w : World) (r : Response).

Lemma getCartData_fresh w (data : Cart) (timestamp : Z) :
  cartCache (cartUtils w) = Some (data, timestamp) →
  now (host w) - timestamp < 5000 →
  cartUtils_getCartData false w = (Normal (Returned (VCart (Some data))), w).
Proof.
  intros Hc Ht. unfold cartUtils_getCartData. unfold_m.
  rewrite Hc. simpl.
  destruct (Z.ltb_spec (now (host w) - timestamp) 5000); [done | lia].
Qed.

(** Timers only issue requests: the cache and the clock are theirs
    neither to write. *)
Lemma fire_cache t w :
  cartUtils (fire t w) = cartUtils w ∧ now (host (fire t w)) = now (host w).
Proof. unfold fire. destruct (task t); by split. Qed.

Lemma fire_all_cache (l : list Timer) w :
  cartUtils (foldl (λ acc tm, fire tm acc) w l) = cartUtils w ∧
  now (host (foldl (λ acc tm, fire tm acc) w l)) = now (host w).
Proof.
  revert w. induction l as [|t l IH]; intros w; simpl; [done|].
  destruct (IH (fire t w)) as [-> ->]. apply fire_cache.
Qed.

Lemma tick_cache dt w :
  cartUtils (tick dt w) = cartUtils w ∧
  now (host (tick dt w)) = now (host w) + dt.
Proof. unfold tick. by destruct (fire_all_cache
  (List.filter (is_due (now (host w) + dt)) (timers (host w)))
  (with_host (λ h, host_set_timers (fresh h)
     (List.filter (λ tm, negb (is_due (now (host w) + dt) tm))
        (timers (host w))) (host_set_now (now (host w) + dt) h)) w))
  as [-> ->]. Qed.

(** A read, its OK response, less than five seconds, a second read: the
    second read is served from the cache. *)
Lemma getCartData_twice_within_TTL w id p rest (data : Cart) (dt : Z) :
  let w1 := exec (CU_getCartData false) w in
  take_pending id (inflight (host w1)) = Some (p, rest) →
  cont p = K_CU_getCartData →
  dt < 5000 →
  let w2 := run [Respond id (HttpOk (Json data)); Tick dt] w1 in
  exec (CU_getCartData false) w2
  = with_host (host_settle OpCU_getCartData (Normal (VCart (Some data)))) w2.
Proof.
  intros w1 Hp Hk Hdt w2. simpl. unfold run_async.
  rewrite (getCartData_fresh w2 data (now (host w1))); [done| |].
  - unfold w2. simpl. destruct (tick_cache dt
      (deliver id (HttpOk (Json data)) w1)) as [-> _].
    unfold deliver. rewrite Hp, Hk. reflexivity.
  - unfold w2. simpl. destruct (tick_cache dt
      (deliver id (HttpOk (Json data)) w1)) as [_ ->].
    unfold deliver. rewrite Hp, Hk. simpl. lia.
Qed.

End Cache.

(** C4: while the cached cart is less than 5000 ms old, [getCartData()]
    returns the cached cart at once and issues no request: the page is as
    before, the returned promise apart. *)
Theorem getCartData_within_TTL (w : World) (data : Cart) (timestamp : Z) :
  cartCache (cartUtils w) = Some (data, timestamp) →
  now (host w) - timestamp < 5000 →
  let w' := exec (CU_getCartData false) w in
  w' = with_host (host_settle OpCU_getCartData (Normal (VCart (Some data)))) w ∧
  issued_since w w' = [] ∧
  inflight (host w') = inflight (host w) ∧
  settled_since w w' = [(OpCU_getCartData, Normal (VCart (Some data)))].
Proof.
  intros Hc Ht. simpl. unfold run_async.
  rewrite (getCartData_fresh w data timestamp) by done.
  repeat split; by since.
Qed.

(** The page after a first [getCartData()] was answered; 4999 ms later. *)
Lemma getCartData_within_TTL_witness :
  let w := run [CU_getCartData false; Respond 2 (HttpOk (Json demo_cart));
                Tick 4999] demo_page in
  cartCache (cartUtils w) = Some (demo_cart, 0) ∧
  now (host w) - 0 < 5000 ∧
  issued_since w (exec (CU_getCartData false) w) = [].
Proof.
  pose proof (getCartData_within_TTL
    (run [CU_getCartData false; Respond 2 (HttpOk (Json demo_cart));
          Tick 4999] demo_page) demo_cart 0 eq_refl eq_refl) as H.
  split; [reflexivity | split; [reflexivity | exact (proj1 (proj2 H))]].
Defined.

(** ** Validation in [addToCart] *)



(** ** What invalidates the cache *)

(** C10: a successful [updateCartNote] empties [cartCache], so the next
    [getCartData()] goes to the network; [updateCartItem] and
    [removeFromCart] never write [cartCache], whatever the response; hence
    a cached cart less than 5000 ms old is still returned by
    [getCartData()] right after a successful line change.  This is stated
    for the code after the response, and for the whole of a call: the
    request goes out, the cache is as it was, the server answers OK. *)
Theorem only_the_note_clears_the_cache (w : World) (old new : Cart)
    (timestamp : Z) (text : string) (line qty : Z) (r : Response) :
  cartCache (cartUtils w) = Some (old, timestamp) →
  now (host w) - timestamp < 5000 →
  (let w' := snd (cartUtils_updateCartNote_resume text (HttpOk (Json new)) w) in
   cartCache (cartUtils w') = None ∧
   fst (cartUtils_getCartData false w') = Normal Awaiting ∧
   issued_since w' (snd (cartUtils_getCartData false w'))
   = [{| endpoint := CartJs; body := NoBody |}]) ∧
  cartUtils (snd (cartUtils_updateCartItem line qty w)) = cartUtils w ∧
  cartUtils (snd (cartUtils_updateCartItem_resume r w)) = cartUtils w ∧
  cartUtils (snd (cartUtils_removeFromCart line w)) = cartUtils w ∧
  cartUtils (snd (cartUtils_removeFromCart_resume r w)) = cartUtils w ∧
  (let w' := snd (cartUtils_updateCartItem_resume (HttpOk (Json new)) w) in
   cartUtils_getCartData false w'
   = (Normal (Returned (VCart (Some old))), w')) ∧
  (* the call of [updateCartNote] *)
  cartUtils_updateCartNote text w
  = (Normal Awaiting,
     with_host (host_issue {| rid := fresh (host w); req := note_request text;
                              cont := K_CU_updateCartNote text |}) w) ∧
  (is_failure r = true →
   cartUtils (snd (cartUtils_updateCartNote_resume text r w)) = cartUtils w) ∧
  (* a call and its OK response *)
  (reachable w →
   let w1 := exec (CU_updateCartNote text) w in
   let w2 := exec (Respond (fresh (host w)) (HttpOk (Json new))) w1 in
   issued_since w w1 = [note_request text] ∧
   cartCache (cartUtils w1) = Some (old, timestamp) ∧
   cartCache (cartUtils w2) = None ∧
   settled_since w w2
   = [(OpCU_updateCartNote, Normal (VResult (Success new)))] ∧
   events_since w w2 = [EvNoteUpdated text] ∧
   issued_since w2 (exec (CU_getCartData false) w2) = [cart_js]) ∧
  (reachable w →
   let w1 := exec (CU_updateCartItem line qty) w in
   let w2 := exec (Respond (fresh (host w)) (HttpOk (Json new))) w1 in
   issued_since w w1 = [change_request line (Some qty)] ∧
   settled_since w w2
   = [(OpCU_updateCartItem, Normal (VResult (Success new)))] ∧
   cartCache (cartUtils w2) = Some (old, timestamp) ∧
   exec (CU_getCartData false) w2
   = with_host (host_settle OpCU_getCartData (Normal (VCart (Some old)))) w2) ∧
  (reachable w →
   let w1 := exec (CU_removeFromCart line) w in
   let w2 := exec (Respond (fresh (host w)) (HttpOk (Json new))) w1 in
   issued_since w w1 = [change_request line (Some 0)] ∧
   settled_since w w2
   = [(OpCU_removeFromCart, Normal (VResult (Success new)))] ∧
   cartCache (cartUtils w2) = Some (old, timestamp) ∧
   exec (CU_getCartData false) w2
   = with_host (host_settle OpCU_getCartData (Normal (VCart (Some old)))) w2).
Proof.
  intros Hc Ht. cbv zeta.
  split; [split; [reflexivity | split; [reflexivity |]] |].
  { unfold_scripts; unfold_m; by since. }
  split; [reflexivity |].
  split; [destruct r as [m|[d|m]|s m]; reflexivity |].
  split; [reflexivity |].
  split; [destruct r as [m|[d|m]|s m]; reflexivity |].
  split; [by apply (getCartData_fresh _ old timestamp) |].
  split; [reflexivity |].
  split; [by destruct r as [m|[d|m]|s m] |].
  split; [| split].
  - intros Hr.
    change (exec (CU_updateCartNote text) w)
      with (with_host
              (host_issue {| rid := fresh (host w); req := note_request text;
                             cont := K_CU_updateCartNote text |}) w).
    rewrite (deliver_last (inflight (host w))
               {| rid := fresh (host w); req := note_request text;
                  cont := K_CU_updateCartNote text |});
      [| reflexivity | reflexivity | exact (reachable_ids_inv w Hr)].
    split; [by since |]. split; [exact Hc |].
    split; [reflexivity |]. split; [by since |]. split; [by since |].
    unfold issued_since. simpl.
    rewrite (cons_middle (note_request text) (sent (host w))), app_assoc.
    by rewrite drop_app_length.
  - intros Hr.
    change (exec (CU_updateCartItem line qty) w)
      with (with_host
              (host_issue {| rid := fresh (host w);
                             req := change_request line (Some qty);
                             cont := K_CU_updateCartItem |}) w).
    rewrite (deliver_last (inflight (host w))
               {| rid := fresh (host w);
                  req := change_request line (Some qty);
                  cont := K_CU_updateCartItem |});
      [| reflexivity | reflexivity | exact (reachable_ids_inv w Hr)].
    split; [by since |]. split; [by since |]. split; [exact Hc |].
    simpl. unfold run_async.
    by rewrite (getCartData_fresh _ old timestamp).
  - intros Hr.
    change (exec (CU_removeFromCart line) w)
      with (with_host
              (host_issue {| rid := fresh (host w);
                             req := change_request line (Some 0);
                             cont := K_CU_removeFromCart |}) w).
    rewrite (deliver_last (inflight (host w))
               {| rid := fresh (host w);
                  req := change_request line (Some 0);
                  cont := K_CU_removeFromCart |});
      [| reflexivity | reflexivity | exact (reachable_ids_inv w Hr)].
    split; [by since |]. split; [by since |]. split; [exact Hc |].
    simpl. unfold run_async.
    by rewrite (getCartData_fresh _ old timestamp).
Qed.

(** A cart cached at time 0; at 1000 ms a note is saved and the server
    answers OK: the cache is empty.  On the same page a line change the
    server answers with an emptied cart leaves the cached cart to be read
    again. *)
Lemma only_the_note_clears_the_cache_witness :
  let w := run [CU_getCartData false; Respond 2 (HttpOk (Json demo_cart));
                Tick 1000] demo_page in
  let emptied := {| item_count := 0; total_price := 0; items := [];
                    note := "gift" |} in
  cartCache (cartUtils w) = Some (demo_cart, 0) ∧
  now (host w) - 0 < 5000 ∧
  reachable w ∧
  cartCache (cartUtils
    (run [CU_updateCartNote "gift"; Respond 3 (HttpOk (Json emptied))] w))
  = None ∧
  fst (cartUtils_getCartData false
         (snd (cartUtils_updateCartItem_resume (HttpOk (Json emptied)) w)))
  = Normal (Returned (VCart (Some demo_cart))).
Proof.
  assert (reachable (run [CU_getCartData false;
                          Respond 2 (HttpOk (Json demo_cart));
                          Tick 1000] demo_page)) as Hr
    by apply reachable_run, reachable_boot.
  pose proof (only_the_note_clears_the_cache
    (run [CU_getCartData false; Respond 2 (HttpOk (Json demo_cart));
          Tick 1000] demo_page)
    demo_cart
    {| item_count := 0; total_price := 0; items := []; note := "gift" |}
    0 "gift" 1 0 (NetworkFailure "Failed to fetch") eq_refl eq_refl) as H.
  split; [reflexivity | split; [reflexivity | split; [exact Hr |]]].
  destruct H as (_ & _ & _ & _ & _ & Hstale & _ & _ & Hnote & _).
  split; [exact (proj1 (proj2 (proj2 (Hnote Hr)))) | exact (f_equal fst Hstale)].
Defined.

(** ** Typed results *)



(** ** A failed quantity change in [CartSystem] *)




(** ** The same change twice *)

(** C6, as worded, fails: [cartUtils.updateCartItem(1, 5)] twice in a row
    issues two requests. *)
Lemma updateCartItem_twice_is_two_calls :
  issued_since demo_page
    (run [CU_updateCartItem 1 5; CU_updateCartItem 1 5] demo_page)
  = [change_request 1 (Some 5); change_request 1 (Some 5)] ∧
  ¬ changeLine_idempotent.
Proof.
  split; [reflexivity |]. intros H. specialize (H demo_page 1 5 (reachable_boot _ _ _)).
  vm_compute in H. discriminate.
Qed.

(** C6, as amended: the same quantity change raised twice in a row through
    [CartSystem.updateLineItem], starting idle, is one request: the second
    call finds [isUpdating] set and returns.  [cartUtils.updateCartItem]
    and [CartDrawer.updateCartItem] have no such guard and issue one
    request per call. *)
Theorem same_change_twice (w : World) (input : nat) (el : InputEl)
    (line qty : Z) :
  isUpdating (cartSystem w) = false →
  inputs (host w) !! input = Some el →
  issued_since w (run [CS_updateLineItem input; CS_updateLineItem input] w)
  = [change_request (dataset_line el) (value el)] ∧
  issued_since w (run [CU_updateCartItem line qty;
                       CU_updateCartItem line qty] w)
  = [change_request line (Some qty); change_request line (Some qty)] ∧
  issued_since w
    (run_async OpCD_updateCartItem (CartDrawer_updateCartItem line qty)
       (run_async OpCD_updateCartItem (CartDrawer_updateCartItem line qty) w))
  = [change_request line (Some qty); change_request line (Some qty)].
Proof.
  intros Hidle Hel. split; [| split; since; reflexivity].
  change (run [CS_updateLineItem input; CS_updateLineItem input] w)
    with (exec (CS_updateLineItem input) (exec (CS_updateLineItem input) w)).
  rewrite (exec_updateLineItem_idle input el w) by done.
  rewrite (exec_updateLineItem_busy input el) by done.
  since. reflexivity.
Qed.

Lemma same_change_twice_witness :
  isUpdating (cartSystem loaded_page) = false ∧
  inputs (host loaded_page) !! 0%nat
  = Some {| dataset_line := 1; value := Some 5 |} ∧
  issued_since loaded_page
    (run [CS_updateLineItem 0; CS_updateLineItem 0] loaded_page)
  = [change_request 1 (Some 5)].
Proof.
  pose proof (same_change_twice loaded_page 0%nat
                {| dataset_line := 1; value := Some 5 |} 1 5
                eq_refl eq_refl) as H.
  split; [reflexivity | split; [reflexivity | exact (proj1 H)]].
Defined.

(** ** The debounce of the drawer *)

Section Debounce.

Implicit Types (w : World) (t : Timer).

(** A debounced quantity edit leaves exactly its own timer armed. *)
Lemma exec_handleQuantityChange line v w :
  timers_inv w →
  let w' := exec (CD_handleQuantityChange line v) w in
  timers (host w')
  = [{| tid := fresh (host w); due := now (host w) + 500;
        task := TaskUpdateCartItem line (js_or v 0) |}] ∧
  sent (host w') = sent (host w) ∧
  now (host w') = now (host w).
Proof.
  intros Hinv. cbv zeta. cbv beta iota delta [exec run_sync]. split.
  - pose proof (view_handleQuantityChange line v w) as Hv.
    rewrite (timers_inv_cleared w Hinv) in Hv.
    unfold view in Hv. injection Hv as _ _ Hv _. exact Hv.
  - unfold_scripts. unfold_m.
    by destruct (debounceTimer (cartDrawer w)).
Qed.

(** Time passes, the only armed timer is not due yet. *)
Lemma exec_tick_early dt w t :
  timers (host w) = [t] →
  now (host w) + dt < due t →
  let w' := exec (Tick dt) w in
  timers (host w') = [t] ∧
  sent (host w') = sent (host w) ∧
  now (host w') = now (host w) + dt.
Proof.
  intros Ht Hearly. simpl. unfold tick. rewrite Ht. simpl.
  unfold is_due. destruct (Z.leb_spec (due t) (now (host w) + dt)); [lia|].
  by simpl.
Qed.

(** Time passes and the only armed timer, a quantity edit, fires. *)
Lemma exec_tick_due dt w t line qty :
  timers (host w) = [t] →
  due t ≤ now (host w) + dt →
  task t = TaskUpdateCartItem line qty →
  sent (host (exec (Tick dt) w))
  = sent (host w) ++ [change_request line (Some qty)].
Proof.
  intros Ht Hdue Htask. simpl. unfold tick. rewrite Ht. simpl.
  unfold is_due. destruct (Z.leb_spec (due t) (now (host w) + dt)); [|lia].
  simpl. unfold fire. rewrite Htask. reflexivity.
Qed.

(** What the handlers of the drawer and the clock leave alone. *)
Lemma frame_handleQuantityChange line v w :
  isUpdating (cartSystem (exec (CD_handleQuantityChange line v) w))
  = isUpdating (cartSystem w) ∧
  inputs (host (exec (CD_handleQuantityChange line v) w)) = inputs (host w) ∧
  inflight (host (exec (CD_handleQuantityChange line v) w))
  = inflight (host w).
Proof.
  cbv beta iota delta [exec run_sync]. unfold_scripts. unfold_m.
  by destruct (debounceTimer (cartDrawer w)).
Qed.

Lemma frame_handleNoteChange text w :
  isUpdating (cartSystem (exec (CD_handleNoteChange text) w))
  = isUpdating (cartSystem w) ∧
  inputs (host (exec (CD_handleNoteChange text) w)) = inputs (host w).
Proof.
  cbv beta iota delta [exec run_sync]. unfold_scripts. unfold_m.
  by destruct (debounceTimer (cartDrawer w)).
Qed.

Lemma frame_fire t w :
  isUpdating (cartSystem (fire t w)) = isUpdating (cartSystem w) ∧
  inputs (host (fire t w)) = inputs (host w).
Proof. unfold fire. by destruct (task t). Qed.

Lemma frame_fire_all (l : list Timer) w :
  isUpdating (cartSystem (foldl (λ acc tm, fire tm acc) w l))
  = isUpdating (cartSystem w) ∧
  inputs (host (foldl (λ acc tm, fire tm acc) w l)) = inputs (host w).
Proof.
  revert w. induction l as [|t l IH]; intros w; simpl; [done|].
  destruct (IH (fire t w)) as [-> ->]. apply frame_fire.
Qed.

(** While the only armed timer waits no request goes out; when it fires,
    as a quantity edit, its request is the one that goes out. *)
Lemma exec_tick_early_inflight dt w t :
  timers (host w) = [t] →
  now (host w) + dt < due t →
  inflight (host (exec (Tick dt) w)) = inflight (host w).
Proof.
  intros Ht Hearly. simpl. unfold tick. rewrite Ht. simpl.
  unfold is_due. destruct (Z.leb_spec (due t) (now (host w) + dt)); [lia|].
  by simpl.
Qed.

Lemma exec_tick_due_inflight dt w t line qty :
  timers (host w) = [t] →
  due t ≤ now (host w) + dt →
  task t = TaskUpdateCartItem line qty →
  inflight (host (exec (Tick dt) w))
  = inflight (host w)
    ++ [{| rid := fresh (host w); req := change_request line (Some qty);
           cont := K_CD_updateCartItem |}].
Proof.
  intros Ht Hdue Htask. simpl. unfold tick. rewrite Ht. simpl.
  unfold is_due. destruct (Z.leb_spec (due t) (now (host w) + dt)); [|lia].
  simpl. unfold fire. rewrite Htask. reflexivity.
Qed.

Lemma frame_tick dt w :
  isUpdating (cartSystem (exec (Tick dt) w)) = isUpdating (cartSystem w) ∧
  inputs (host (exec (Tick dt) w)) = inputs (host w).
Proof.
  simpl. unfold tick.
  by destruct (frame_fire_all
    (List.filter (is_due (now (host w) + dt)) (timers (host w)))
    (with_host (λ h, host_set_timers (fresh h)
       (List.filter (λ tm, negb (is_due (now (host w) + dt) tm))
          (timers (host w))) (host_set_now (now (host w) + dt) h)) w))
    as [-> ->].
Qed.

(** An edit of a quantity input of the drawer: the drawer arms its timer
    for the edit, and [CartSystem] sends the edit at once unless it is
    waiting for a response. *)
Lemma exec_drawer_input_change input v l w :
  timers_inv w →
  dataset_line <$> inputs (host w) !! input = Some l →
  let w' := drawer_input_change input v w in
  timers (host w')
  = [{| tid := fresh (host w); due := now (host w) + 500;
        task := TaskUpdateCartItem l (js_or v 0) |}] ∧
  sent (host w')
  = sent (host w)
    ++ (if isUpdating (cartSystem w) then [] else [change_request l v]) ∧
  now (host w') = now (host w) ∧
  isUpdating (cartSystem w') = true ∧
  (∀ i, dataset_line <$> inputs (host w') !! i
        = dataset_line <$> inputs (host w) !! i) ∧
  ∃ id, inflight (host w')
        = inflight (host w)
          ++ (if isUpdating (cartSystem w) then []
              else [{| rid := id; req := change_request l v;
                       cont := K_CS_updateLineItem input l |}]).
Proof.
  intros Hinv Hl.
  destruct (inputs (host w) !! input) as [el|] eqn:Hel; [|discriminate].
  injection Hl as <-.
  assert (inputs (host (user_types input v w)) !! input
          = Some {| dataset_line := dataset_line el; value := v |}) as Hlook.
  { simpl. rewrite list_lookup_alter, Hel. by rewrite decide_True. }
  cbv zeta. unfold drawer_input_change. cbv zeta. rewrite Hlook.
  cbn [dataset_line value].
  assert (timers_inv (user_types input v w)) as Hinv1 by exact Hinv.
  destruct (exec_handleQuantityChange (dataset_line el) v
              (user_types input v w) Hinv1) as (Ht & Hs & Hn).
  destruct (frame_handleQuantityChange (dataset_line el) v
              (user_types input v w)) as (Hu & Hi & Hf).
  set (w2 := exec (CD_handleQuantityChange (dataset_line el) v)
               (user_types input v w)) in *.
  assert (inputs (host w2) !! input
          = Some {| dataset_line := dataset_line el; value := v |}) as Hlook2
    by (by rewrite Hi).
  assert (∀ i, dataset_line <$> inputs (host w2) !! i
               = dataset_line <$> inputs (host w) !! i) as Hlines.
  { intros i. rewrite Hi. simpl. rewrite list_lookup_alter.
    destruct (decide (input = i)) as [<-|]; [|done].
    by rewrite Hel. }
  change (isUpdating (cartSystem (user_types input v w)))
    with (isUpdating (cartSystem w)) in Hu.
  destruct (isUpdating (cartSystem w)) eqn:B.
  - rewrite (exec_updateLineItem_busy input _ w2 Hu Hlook2).
    cbn [host with_host host_settle timers sent now cartSystem inputs
         inflight].
    rewrite Ht, Hs, Hn, Hu, Hf, !app_nil_r.
    do 5 (split; [done|]). by exists 0%nat.
  - rewrite (exec_updateLineItem_idle input _ w2 Hu Hlook2).
    cbn [host with_host with_cartSystem host_issue timers sent now
         cartSystem isUpdating inputs inflight req dataset_line value].
    rewrite Ht, Hs, Hn, Hf.
    do 5 (split; [done|]). by eexists.
Qed.

Lemma reachable_drawer_input_change input v w :
  reachable w → reachable (drawer_input_change input v w).
Proof.
  intros Hr. unfold drawer_input_change. cbv zeta.
  change (user_types input v w) with (exec (UserTypes input v) w).
  destruct (inputs (host (exec (UserTypes input v) w)) !! input);
    by repeat apply reachable_exec.
Qed.

End Debounce.

(** C5, as worded, fails.  On the loaded page the shopper sets line 1 of
    the drawer to 5, 6 and 7 at 100 ms intervals: two calls are made, 5 at
    once, by [CartSystem], and 7 once the window has passed, by the drawer.
    Nor is the debounce per line: while [CartSystem] waits for a response,
    line 1 is set to 5 and, 100 ms later, line 2 to 6; only the edit of
    line 2 is sent, the edit of line 1 is lost. *)
Lemma first_edit_is_sent_at_once :
  issued_since loaded_page
    (exec (Tick 500) (drawer_input_change 0 (Some 7)
      (exec (Tick 100) (drawer_input_change 0 (Some 6)
        (exec (Tick 100) (drawer_input_change 0 (Some 5) loaded_page))))))
  = [change_request 1 (Some 5); change_request 1 (Some 7)] ∧
  issued_since busy_page
    (exec (Tick 500) (drawer_input_change 1 (Some 6)
      (exec (Tick 100) (drawer_input_change 0 (Some 5) busy_page))))
  = [change_request 2 (Some 6)] ∧
  ¬ three_edits_one_call ∧
  ¬ per_line_debounce.
Proof.
  split; [reflexivity | split; [reflexivity | split]].
  - intros H.
    assert (0 ≤ 100 < 500) as Hd by lia.
    specialize (H loaded_page 0%nat {| dataset_line := 1; value := Some 5 |}
                  100 100 reachable_loaded_page eq_refl Hd Hd).
    vm_compute in H. discriminate.
  - intros H.
    assert (reachable busy_page) as Hr
      by (apply reachable_exec, reachable_drawer_input_change,
            reachable_loaded_page).
    assert (0 ≤ 100 < 500) as Hd by lia.
    assert (1 ≠ 2) as Hne by lia.
    specialize (H busy_page 0%nat 1%nat
                  {| dataset_line := 1; value := Some 5 |}
                  {| dataset_line := 2; value := Some 3 |} 5 6 100
                  Hr eq_refl eq_refl Hne Hd).
    vm_compute in H.
    repeat (apply elem_of_cons in H as [H|H]; [discriminate|]).
    by apply elem_of_nil in H.
Qed.

(** C5, as amended: three quantity edits in the drawer, each less than
    500 ms after the one before, followed by 500 ms of quiet and no
    response in between.  The drawer makes exactly one call, to
    /cart/change.js, with the line and the quantity of the last edit (7
    for the edits 5, 6, 7 of one line): it has one timer, and an edit
    inside the window replaces the pending one whatever line it is for.
    The same change events reach [CartSystem]: when it is not waiting for
    a response it sends the first edit at once, and it drops the two that
    follow.  So the calls are the last edit alone, or the first and the
    last. *)
Theorem three_rapid_edits_first_and_last (w : World) (i1 i2 i3 : nat)
    (l1 l2 l3 : Z) (v1 v2 v3 : option Z) (d1 d2 d3 : Z) :
  reachable w →
  dataset_line <$> inputs (host w) !! i1 = Some l1 →
  dataset_line <$> inputs (host w) !! i2 = Some l2 →
  dataset_line <$> inputs (host w) !! i3 = Some l3 →
  d1 < 500 → d2 < 500 → 500 ≤ d3 →
  let w' := exec (Tick d3) (drawer_input_change i3 v3
              (exec (Tick d2) (drawer_input_change i2 v2
                (exec (Tick d1) (drawer_input_change i1 v1 w))))) in
  issued_since w w'
  = (if isUpdating (cartSystem w) then [] else [change_request l1 v1])
    ++ [change_request l3 (Some (js_or v3 0))] ∧
  ∃ id1 id3,
    inflight (host w')
    = inflight (host w)
      ++ (if isUpdating (cartSystem w) then []
          else [{| rid := id1; req := change_request l1 v1;
                   cont := K_CS_updateLineItem i1 l1 |}])
      ++ [{| rid := id3; req := change_request l3 (Some (js_or v3 0));
             cont := K_CD_updateCartItem |}].
Proof.
  intros Hr Hl1 Hl2 Hl3 H1 H2 H3. cbv zeta.
  set (w1 := drawer_input_change i1 v1 w).
  set (w2 := exec (Tick d1) w1).
  set (w3 := drawer_input_change i2 v2 w2).
  set (w4 := exec (Tick d2) w3).
  set (w5 := drawer_input_change i3 v3 w4).
  assert (reachable w2) as Hr2
    by (apply reachable_exec, reachable_drawer_input_change, Hr).
  assert (reachable w4) as Hr4
    by (apply reachable_exec, reachable_drawer_input_change, Hr2).
  destruct (exec_drawer_input_change i1 v1 l1 w (reachable_timers_inv w Hr) Hl1)
    as (Ht1 & Hs1 & Hn1 & Hu1 & Hi1 & id1 & Hf1).
  fold w1 in Ht1, Hs1, Hn1, Hu1, Hi1, Hf1.
  destruct (exec_tick_early d1 w1 _ Ht1) as (Ht2 & Hs2 & Hn2);
    [simpl; lia|]. fold w2 in Ht2, Hs2, Hn2.
  pose proof (exec_tick_early_inflight d1 w1 _ Ht1) as Hf2.
  fold w2 in Hf2. specialize (Hf2 ltac:(simpl; lia)).
  destruct (frame_tick d1 w1) as (Hu2 & Hi2). fold w2 in Hu2, Hi2.
  assert (dataset_line <$> inputs (host w2) !! i2 = Some l2) as Hl2'
    by (by rewrite Hi2, Hi1).
  destruct (exec_drawer_input_change i2 v2 l2 w2
              (reachable_timers_inv w2 Hr2) Hl2')
    as (Ht3 & Hs3 & Hn3 & Hu3 & Hi3 & id2 & Hf3).
  fold w3 in Ht3, Hs3, Hn3, Hu3, Hi3, Hf3.
  rewrite Hu2, Hu1, app_nil_r in Hs3, Hf3.
  destruct (exec_tick_early d2 w3 _ Ht3) as (Ht4 & Hs4 & Hn4);
    [simpl; lia|]. fold w4 in Ht4, Hs4, Hn4.
  pose proof (exec_tick_early_inflight d2 w3 _ Ht3) as Hf4.
  fold w4 in Hf4. specialize (Hf4 ltac:(simpl; lia)).
  destruct (frame_tick d2 w3) as (Hu4 & Hi4). fold w4 in Hu4, Hi4.
  assert (dataset_line <$> inputs (host w4) !! i3 = Some l3) as Hl3'
    by (by rewrite Hi4, Hi3, Hi2, Hi1).
  destruct (exec_drawer_input_change i3 v3 l3 w4
              (reachable_timers_inv w4 Hr4) Hl3')
    as (Ht5 & Hs5 & Hn5 & Hu5 & Hi5 & id3 & Hf5).
  fold w5 in Ht5, Hs5, Hn5, Hu5, Hi5, Hf5.
  rewrite Hu4, Hu3, app_nil_r in Hs5, Hf5.
  unfold issued_since. clearbody w5.
  rewrite (exec_tick_due d3 w5 _ l3 (js_or v3 0) Ht5); [| simpl; lia | done].
  rewrite (exec_tick_due_inflight d3 w5 _ l3 (js_or v3 0) Ht5);
    [| simpl; lia | done].
  rewrite Hs5, Hs4, Hs3, Hs2, Hs1, <- app_assoc.
  rewrite Hf5, Hf4, Hf3, Hf2, Hf1, <- app_assoc.
  split; [by rewrite drop_app_length | by exists id1, (fresh (host w5))].
Qed.

(** Scenario D of the specification on the loaded page: line 1 of the
    drawer set to 5, 6, 7 at 100 ms intervals. *)
Lemma three_rapid_edits_first_and_last_witness :
  reachable loaded_page ∧
  dataset_line <$> inputs (host loaded_page) !! 0%nat = Some 1 ∧
  100 < 500 ∧ 500 ≤ 500 ∧
  issued_since loaded_page
    (exec (Tick 500) (drawer_input_change 0 (Some 7)
      (exec (Tick 100) (drawer_input_change 0 (Some 6)
        (exec (Tick 100) (drawer_input_change 0 (Some 5) loaded_page))))))
  = [change_request 1 (Some 5); change_request 1 (Some 7)].
Proof.
  assert (dataset_line <$> inputs (host loaded_page) !! 0%nat = Some 1)
    as Hl by reflexivity.
  assert (100 < 500) as H1 by reflexivity.
  assert (500 ≤ 500) as H3 by discriminate.
  split; [apply reachable_loaded_page |].
  split; [exact Hl | split; [exact H1 | split; [exact H3 |]]].
  exact (proj1 (three_rapid_edits_first_and_last loaded_page 0 0 0 1 1 1
                  (Some 5) (Some 6) (Some 7) 100 100 500
                  reachable_loaded_page Hl Hl Hl H1 H1 H3)).
Defined.

(** * Further properties of the scripts *)

(** ** The drawer's timer *)

Section OneTimer.

Implicit Types (w : World) (r : Response).

Lemma timers_run_async o (m : M Outcome) w :
  timers (host (run_async o m w)) = timers (host (snd (m w))).
Proof. unfold run_async. destruct (m w) as [[[|v]|e] w']; reflexivity. Qed.

Lemma timers_CartSystem_updateLineItem input w :
  timers (host (snd (CartSystem_updateLineItem input w))) = timers (host w).
Proof. frame. Qed.

Lemma timers_CartSystem_removeLineItem line w :
  timers (host (snd (CartSystem_removeLineItem line w))) = timers (host w).
Proof. frame. Qed.

Lemma timers_deliver id r w :
  timers (host (deliver id r w)) = timers (host w).
Proof.
  unfold deliver.
  destruct (take_pending id (inflight (host w))) as [[p rest]|]; [|done].
  pose proof (view_resume (cont p) r (with_host (host_set_inflight rest) w))
    as Hv.
  rewrite <- view_run_async with (o := fst (resume (cont p) r)) in Hv.
  unfold view at 1 in Hv.
  destruct (is_cs_cont (cont p)); injection Hv as _ _ -> _; reflexivity.
Qed.

(** What a step does to the armed timers: nothing, or it leaves a single
    one, or it takes the due ones out. *)
Lemma timers_of_exec a w :
  timers_inv w →
  timers (host (exec a w)) = timers (host w) ∨
  (∃ tm, timers (host (exec a w)) = [tm]) ∨
  (∃ t, timers (host (exec a w))
        = List.filter (λ tm, negb (is_due t tm)) (timers (host w))).
Proof.
  intros H. destruct a; cbv beta iota delta [exec run_sync];
  lazymatch goal with
  | |- context [deliver _ _ _] => left; apply timers_deliver
  | |- context [tick ?dt _] =>
      right; right; exists (now (host w) + dt);
      pose proof (view_tick dt w) as Hv; unfold view at 1 in Hv;
      by injection Hv as _ _ -> _
  | |- context [CartDrawer_handleQuantityChange ?l ?v _] =>
      right; left; eexists;
      pose proof (view_handleQuantityChange l v w) as Hv;
      rewrite (timers_inv_cleared w H) in Hv; unfold view at 1 in Hv;
      injection Hv as _ _ Hv _; exact Hv
  | |- context [CartDrawer_handleNoteChange ?t _] =>
      right; left; eexists;
      pose proof (view_handleNoteChange t w) as Hv;
      rewrite (timers_inv_cleared w H) in Hv; unfold view at 1 in Hv;
      injection Hv as _ _ Hv _; exact Hv
  | |- context [CartSystem_removeLineItem _] =>
      left; rewrite timers_run_async;
      apply timers_CartSystem_removeLineItem
  | |- context [match ?x with _ => _ end] =>
      left; destruct x; [|done]; rewrite timers_run_async;
      apply timers_CartSystem_updateLineItem
  | |- context [timers (host ?w')] =>
      left;
      assert (view w' = view w) as Hv
        by (autorewrite with view; reflexivity);
      exact (f_equal (λ v, snd (fst v)) Hv)
  end.
Qed.

Lemma one_timer_exec a w :
  timers_inv w →
  (length (timers (host w)) ≤ 1)%nat →
  (length (timers (host (exec a w))) ≤ 1)%nat.
Proof.
  intros Hinv Hlen.
  destruct (timers_of_exec a w Hinv) as [-> | [[tm ->] | [t ->]]].
  - exact Hlen.
  - simpl. lia.
  - etransitivity; [apply List.filter_length_le | exact Hlen].
Qed.

Lemma one_timer_run tr w :
  timers_inv w →
  (length (timers (host w)) ≤ 1)%nat →
  (length (timers (host (run tr w))) ≤ 1)%nat.
Proof.
  revert w. induction tr as [|a tr IH]; intros w Hinv Hlen; [done|].
  apply IH; [by apply timers_inv_exec | by apply one_timer_exec].
Qed.

End OneTimer.

(** X1: on every page the scripts can reach, at most one timer of the
    drawer is armed, and it is the one [debounceTimer] remembers: no
    debounce timer is ever leaked or armed twice. *)
Theorem drawer_has_one_timer (t0 : Z) (els : list InputEl) (mini : bool)
    (tr : list Action) :
  let w := run tr (boot t0 els mini) in
  (length (timers (host w)) ≤ 1)%nat ∧
  ∀ t, t ∈ timers (host w) → debounceTimer (cartDrawer w) = Some (tid t).
Proof.
  split.
  - apply one_timer_run; [apply timers_inv_boot | simpl; lia].
  - apply timers_inv_run, timers_inv_boot.
Qed.

Section SharedTimer.

Implicit Types (w : World) (t : Timer).

Lemma exec_handleNoteChange text w :
  timers_inv w →
  timers (host (exec (CD_handleNoteChange text) w))
  = [{| tid := fresh (host w); due := now (host w) + 500;
        task := TaskSaveNote text |}] ∧
  sent (host (exec (CD_handleNoteChange text) w)) = sent (host w) ∧
  now (host (exec (CD_handleNoteChange text) w)) = now (host w).
Proof.
  intros Hinv. cbv beta iota delta [exec run_sync]. split.
  - pose proof (view_handleNoteChange text w) as Hv.
    rewrite (timers_inv_cleared w Hinv) in Hv.
    exact (f_equal (λ v, snd (fst v)) Hv).
  - unfold_scripts. unfold_m.
    by destruct (debounceTimer (cartDrawer w)).
Qed.

Lemma exec_tick_due_note dt w t text :
  timers (host w) = [t] →
  due t ≤ now (host w) + dt →
  task t = TaskSaveNote text →
  sent (host (exec (Tick dt) w)) = sent (host w) ++ [note_request text].
Proof.
  intros Ht Hdue Htask. simpl. unfold tick. rewrite Ht. simpl.
  unfold is_due. destruct (Z.leb_spec (due t) (now (host w) + dt)); [|lia].
  simpl. unfold fire. rewrite Htask. reflexivity.
Qed.

End SharedTimer.

(** X2: the note field and the quantity inputs of the drawer share the one
    timer.  A note typed less than 500 ms after a quantity edit cancels the
    call the drawer had pending for that edit: once the window has passed
    the drawer has sent the note only.  A quantity edit less than 500 ms
    after a note cancels the note, which is never sent: the drawer sends
    the quantity only.  Either way the change event of the quantity input
    also reaches [CartSystem], which sends the edit at once unless it is
    waiting for a response; the [input] event of the note reaches the
    drawer alone.  No response arrives in between. *)
Theorem note_and_quantity_cancel_each_other (w : World) (input : nat)
    (line : Z) (v : option Z) (text : string) (d d' : Z) :
  reachable w →
  dataset_line <$> inputs (host w) !! input = Some line →
  d < 500 → 500 ≤ d' →
  issued_since w
    (exec (Tick d') (exec (CD_handleNoteChange text)
      (exec (Tick d) (drawer_input_change input v w))))
  = (if isUpdating (cartSystem w) then [] else [change_request line v])
    ++ [note_request text] ∧
  issued_since w
    (exec (Tick d') (drawer_input_change input v
      (exec (Tick d) (exec (CD_handleNoteChange text) w))))
  = (if isUpdating (cartSystem w) then [] else [change_request line v])
    ++ [change_request line (Some (js_or v 0))].
Proof.
  intros Hr Hl Hd Hd'. split.
  - set (w1 := drawer_input_change input v w).
    set (w2 := exec (Tick d) w1).
    set (w3 := exec (CD_handleNoteChange text) w2).
    assert (reachable w2) as Hr2
      by (apply reachable_exec, reachable_drawer_input_change, Hr).
    destruct (exec_drawer_input_change input v line w
                (reachable_timers_inv w Hr) Hl)
      as (Ht1 & Hs1 & Hn1 & _). fold w1 in Ht1, Hs1, Hn1.
    destruct (exec_tick_early d w1 _ Ht1) as (Ht2 & Hs2 & Hn2);
      [simpl; lia|]. fold w2 in Ht2, Hs2, Hn2.
    destruct (exec_handleNoteChange text w2 (reachable_timers_inv w2 Hr2))
      as (Ht3 & Hs3 & Hn3). fold w3 in Ht3, Hs3, Hn3.
    unfold issued_since. clearbody w3.
    rewrite (exec_tick_due_note d' w3 _ text Ht3); [| simpl; lia | done].
    rewrite Hs3, Hs2, Hs1, <- app_assoc. by rewrite drop_app_length.
  - set (w1 := exec (CD_handleNoteChange text) w).
    set (w2 := exec (Tick d) w1).
    set (w3 := drawer_input_change input v w2).
    assert (reachable w2) as Hr2 by (do 2 apply reachable_exec; exact Hr).
    destruct (exec_handleNoteChange text w (reachable_timers_inv w Hr))
      as (Ht1 & Hs1 & Hn1). fold w1 in Ht1, Hs1, Hn1.
    destruct (frame_handleNoteChange text w) as (Hu1 & Hi1).
    fold w1 in Hu1, Hi1.
    destruct (exec_tick_early d w1 _ Ht1) as (Ht2 & Hs2 & Hn2);
      [simpl; lia|]. fold w2 in Ht2, Hs2, Hn2.
    destruct (frame_tick d w1) as (Hu2 & Hi2). fold w2 in Hu2, Hi2.
    assert (dataset_line <$> inputs (host w2) !! input = Some line) as Hl'
      by (by rewrite Hi2, Hi1).
    destruct (exec_drawer_input_change input v line w2
                (reachable_timers_inv w2 Hr2) Hl')
      as (Ht3 & Hs3 & Hn3 & _). fold w3 in Ht3, Hs3, Hn3.
    rewrite Hu2, Hu1 in Hs3.
    unfold issued_since. clearbody w3.
    rewrite (exec_tick_due d' w3 _ line (js_or v 0) Ht3);
      [| simpl; lia | done].
    rewrite Hs3, Hs2, Hs1, <- app_assoc. by rewrite drop_app_length.
Qed.

(** On the loaded page line 1 of the drawer is set to 3 and, 100 ms later,
    the note is typed: the drawer never sends the 3, [CartSystem] did. *)
Lemma note_and_quantity_cancel_each_other_witness :
  reachable loaded_page ∧
  dataset_line <$> inputs (host loaded_page) !! 0%nat = Some 1 ∧
  100 < 500 ∧ 500 ≤ 500 ∧
  issued_since loaded_page
    (exec (Tick 500) (exec (CD_handleNoteChange "gift")
      (exec (Tick 100) (drawer_input_change 0 (Some 3) loaded_page))))
  = [change_request 1 (Some 3); note_request "gift"].
Proof.
  assert (dataset_line <$> inputs (host loaded_page) !! 0%nat = Some 1)
    as Hl by reflexivity.
  assert (100 < 500) as H1 by reflexivity.
  assert (500 ≤ 500) as H3 by discriminate.
  split; [apply reachable_loaded_page |].
  split; [exact Hl | split; [exact H1 | split; [exact H3 |]]].
  exact (proj1 (note_and_quantity_cancel_each_other loaded_page 0 1 (Some 3)
                  "gift" 100 500 reachable_loaded_page Hl H1 H3)).
Defined.

(** ** A request that is never answered *)

Section Stuck.

Implicit Types (w : World).

Lemma busy_exec a w :
  isUpdating (cartSystem w) = true →
  is_respond a = false →
  fst (fst (view (exec a w))) = fst (fst (view w)).
Proof.
  intros Hbusy Ha. destruct a; try discriminate;
    cbv beta iota delta [exec run_sync];
  lazymatch goal with
  | |- context [CartSystem_removeLineItem ?l] =>
      unfold run_async; by rewrite CartSystem_removeLineItem_busy
  | |- context [match ?x with _ => _ end] =>
      destruct x; [|done];
      unfold run_async; by rewrite CartSystem_updateLineItem_busy
  | |- _ =>
      autorewrite with view;
      rewrite ?view_handleQuantityChange, ?view_handleNoteChange, ?view_tick;
      reflexivity
  end.
Qed.

End Stuck.

(** X3: [CartSystem] has no timeout of its own.  While [isUpdating] is set
    and no response is delivered, whatever else happens on the page (edits,
    clicks, timers, calls of the cart utilities) leaves the flag set and
    [CartSystem]'s requests as they are: every further [updateLineItem] and
    [removeLineItem] is dropped. *)
Theorem unanswered_request_blocks_CartSystem (w : World) (tr : list Action) :
  isUpdating (cartSystem w) = true →
  forallb (λ a, negb (is_respond a)) tr = true →
  isUpdating (cartSystem (run tr w)) = true ∧
  cs_mutations_in_flight (run tr w) = cs_mutations_in_flight w.
Proof.
  revert w. induction tr as [|a tr IH]; intros w Hbusy Htr; [done|].
  simpl in Htr. apply andb_prop in Htr as [Ha Htr].
  apply negb_true_iff in Ha.
  pose proof (busy_exec a w Hbusy Ha) as Hv. unfold view in Hv. simpl in Hv.
  injection Hv as Hu Hc.
  change (run (a :: tr) w) with (run tr (exec a w)).
  destruct (IH (exec a w)) as [-> ->]; [congruence | done |].
  by rewrite Hc.
Qed.

Lemma unanswered_request_blocks_CartSystem_witness :
  let w := exec (CS_updateLineItem 0) loaded_page in
  let tr := [Tick 60000; UserTypes 1 (Some 4); CS_updateLineItem 1;
             CS_removeLineItem 2; CU_updateCartCount] in
  isUpdating (cartSystem w) = true ∧
  forallb (λ a, negb (is_respond a)) tr = true ∧
  isUpdating (cartSystem (run tr w)) = true.
Proof.
  split; [reflexivity | split; [reflexivity |]].
  exact (proj1 (unanswered_request_blocks_CartSystem
                  (exec (CS_updateLineItem 0) loaded_page)
                  [Tick 60000; UserTypes 1 (Some 4); CS_updateLineItem 1;
                   CS_removeLineItem 2; CU_updateCartCount]
                  eq_refl eq_refl)).
Defined.

(** ** A failed change while no cart is held *)

(** X4: when a quantity change of [CartSystem] fails before [CartSystem]
    ever held a cart, the revert itself throws: the call ends in a
    TypeError instead of returning, and the input keeps what the shopper
    typed.  The error toast is shown all the same and the [finally] block
    still clears [isUpdating], so the next edit is accepted. *)
Theorem failed_change_without_cart (w : World) (input : nat) (line : Z)
    (r : Response) :
  is_failure r = true →
  cart (cartSystem w) = None →
  let res := CartSystem_updateLineItem_resume input line r w in
  fst res = Throw (null_deref "items") ∧
  inputs (host (snd res)) = inputs (host w) ∧
  toasts (host (snd res))
  = toasts (host w)
    ++ [{| toast_message := "Erro ao atualizar item";
           toast_type := "error" |}] ∧
  events_since w (snd res) = [] ∧
  isUpdating (cartSystem (snd res)) = false.
Proof.
  intros Hf Hc.
  destruct r as [m|[d|m]|s m]; try discriminate;
    unfold_scripts; unfold_m; simpl; rewrite Hc; simpl;
    (split; [reflexivity |]); (split; [reflexivity |]);
    (split; [reflexivity |]); (split; [by since | reflexivity]).
Qed.

Lemma failed_change_without_cart_witness :
  let w := with_host (host_set_inflight [])
             (exec (CS_updateLineItem 0) demo_page) in
  is_failure (HttpError 422 None) = true ∧
  cart (cartSystem w) = None ∧
  fst (CartSystem_updateLineItem_resume 0 1 (HttpError 422 None) w)
  = Throw (null_deref "items").
Proof.
  split; [reflexivity | split; [reflexivity |]].
  exact (proj1 (failed_change_without_cart
                  (with_host (host_set_inflight [])
                     (exec (CS_updateLineItem 0) demo_page))
                  0%nat 1 (HttpError 422 None) eq_refl eq_refl)).
Defined.

(** ** When [getCartData] goes to the network *)

(** X5: [getCartData] issues exactly one GET /cart.js and suspends whenever
    [forceRefresh] is set, the cache is empty, or the cached cart is 5000 ms
    old or older; the cache itself is left as it is until the response. *)
Theorem getCartData_refetches (w : World) (forceRefresh : bool) :
  (forceRefresh = true ∨
   cartCache (cartUtils w) = None ∨
   ∃ data timestamp, cartCache (cartUtils w) = Some (data, timestamp) ∧
                     5000 ≤ now (host w) - timestamp) →
  cartUtils_getCartData forceRefresh w
  = (Normal Awaiting,
     with_host (host_issue {| rid := fresh (host w); req := cart_js;
                              cont := K_CU_getCartData |}) w).
Proof.
  intros H. unfold cartUtils_getCartData, fetch. unfold_m.
  destruct (cartCache (cartUtils w)) as [[data timestamp]|] eqn:Hc; simpl;
    [|reflexivity].
  destruct H as [-> | [? | (d' & ts' & Heq & Hold)]]; [reflexivity | done |].
  injection Heq as <- <-.
  destruct (Z.ltb_spec (now (host w) - timestamp) 5000); [lia|].
  by rewrite andb_false_r.
Qed.

(** A cart cached at time 0, read again exactly 5000 ms later. *)
Lemma getCartData_refetches_witness :
  let w := run [CU_getCartData false; Respond 2 (HttpOk (Json demo_cart));
                Tick 5000] demo_page in
  (false = true ∨
   cartCache (cartUtils w) = None ∨
   ∃ data timestamp, cartCache (cartUtils w) = Some (data, timestamp) ∧
                     5000 ≤ now (host w) - timestamp) ∧
  fst (cartUtils_getCartData false w) = Normal Awaiting.
Proof.
  assert (false = true ∨
    cartCache (cartUtils (run [CU_getCartData false;
      Respond 2 (HttpOk (Json demo_cart)); Tick 5000] demo_page)) = None ∨
    ∃ data timestamp,
      cartCache (cartUtils (run [CU_getCartData false;
        Respond 2 (HttpOk (Json demo_cart)); Tick 5000] demo_page))
      = Some (data, timestamp) ∧
      5000 ≤ now (host (run [CU_getCartData false;
        Respond 2 (HttpOk (Json demo_cart)); Tick 5000] demo_page))
             - timestamp) as H.
  { right. right. exists demo_cart, 0. split; [reflexivity | discriminate]. }
  split; [exact H |].
  exact (f_equal fst (getCartData_refetches _ false H)).
Defined.

(** X6: the response of [getCartData]'s request.  An OK response with a
    cart is cached with the time of its arrival and returned; any other
    response makes [getCartData] return [null], without throwing, and
    leaves the cache as it was, so an old cart that was cached stays
    cached. *)
Theorem getCartData_response (w : World) (r : Response) :
  let res := cartUtils_getCartData_resume r w in
  match r with
  | HttpOk (Json data) =>
      fst res = Normal (Returned (VCart (Some data))) ∧
      cartCache (cartUtils (snd res)) = Some (data, now (host w))
  | _ =>
      fst res = Normal (Returned (VCart None)) ∧
      cartCache (cartUtils (snd res)) = cartCache (cartUtils w)
  end ∧
  events_since w (snd res) = [] ∧
  inflight (host (snd res)) = inflight (host w).
Proof.
  destruct r as [m|[d|m]|s m]; (split; [split; reflexivity |]);
    (split; [by since | reflexivity]).
Qed.

(** X7: concurrent reads are not shared.  With an empty cache, two calls of
    [getCartData] before any response issue two GET /cart.js, both left in
    flight. *)
Theorem getCartData_calls_are_not_shared (w : World) (f1 f2 : bool) :
  cartCache (cartUtils w) = None →
  let w' := run [CU_getCartData f1; CU_getCartData f2] w in
  issued_since w w' = [cart_js; cart_js] ∧
  inflight (host w')
  = inflight (host w)
    ++ [{| rid := fresh (host w); req := cart_js; cont := K_CU_getCartData |};
        {| rid := S (fresh (host w)); req := cart_js;
           cont := K_CU_getCartData |}].
Proof.
  intros Hc. unfold run. simpl.
  unfold run_async, cartUtils_getCartData, fetch. unfold_m.
  rewrite Hc. simpl. rewrite Hc. simpl.
  split; [by since | by rewrite <- app_assoc].
Qed.

Lemma getCartData_calls_are_not_shared_witness :
  cartCache (cartUtils demo_page) = None ∧
  issued_since demo_page
    (run [CU_getCartData false; CU_getCartData false] demo_page)
  = [cart_js; cart_js].
Proof.
  split; [reflexivity |].
  exact (proj1 (getCartData_calls_are_not_shared demo_page false false
                  eq_refl)).
Defined.

(** ** The badge refresh *)

(** X8: [updateCartCount] feeds itself.  Its OK response dispatches
    [cart:updated]; [cartUtils.init] answers that event with another
    [updateCartCount], so a new GET /cart.js of the same kind is in flight
    right after.  Any other response ends the chain: nothing is dispatched
    and nothing is issued. *)
Theorem badge_refresh_feeds_itself (w : World) (r : Response) :
  let w' := snd (cartUtils_updateCartCount_resume r w) in
  match r with
  | HttpOk (Json data) =>
      events_since w w' = [EvUpdated (Some (item_count data)) (Some data)] ∧
      ∃ id, last (inflight (host w'))
            = Some {| rid := id; req := cart_js;
                      cont := K_CU_updateCartCount |}
  | _ =>
      events_since w w' = [] ∧ inflight (host w') = inflight (host w)
  end.
Proof.
  destruct r as [m|[d|m]|s m];
    unfold_scripts; unfold_m; split_cases;
    (split; [by since |]); try reflexivity;
    eexists; by rewrite last_snoc.
Qed.

(** ** The refresh of the drawer *)

Ltac drawer_frame :=
  intros; unfold_scripts; unfold_m;
  unfold drawer_inv, drawer_view, refreshes_in_flight, run_async,
    run_sync in *;
  split_cases; filter_apps; try reflexivity.

Section Refresh.

Implicit Types (w : World) (r : Response).

Lemma drawer_view_run_async o (m : M Outcome) w :
  drawer_view (run_async o m w) = drawer_view (snd (m w)).
Proof. unfold run_async. destruct (m w) as [[[|v]|e] w']; reflexivity. Qed.

Lemma drawer_inv_view w w' :
  drawer_view w = drawer_view w' → drawer_inv w → drawer_inv w'.
Proof.
  unfold drawer_view, drawer_inv. intros Hv [H1 H2].
  injection Hv as Hu Hc. rewrite <- Hu, <- Hc. done.
Qed.

Lemma drawer_inv_resume k r w :
  (if is_refresh_cont k then refreshes_in_flight w = [] else drawer_inv w) →
  drawer_inv (snd (snd (resume k r) w)).
Proof.
  destruct k; try match goal with c : DrawerCaller |- _ => destruct c end;
    destruct r as [m|[d|m]|s [m|]]; simpl; drawer_frame.
  all: try assumption.
  all: repeat match goal with
       | H : _ ∧ _ |- _ => destruct H
       | H : false = false → _ |- _ => specialize (H eq_refl)
       | H : ?b = false, H' : ?b = false → _ |- _ => specialize (H' H)
       end.
  all: try match goal with H : List.filter _ _ = [] |- _ => rewrite H end.
  all: simpl; (split; [lia | intros ?; first [congruence | auto]]).
Qed.

Lemma take_pending_filter (f : Pending → bool) id (l : list Pending) p rest :
  take_pending id l = Some (p, rest) →
  if f p
  then length (List.filter f l) = S (length (List.filter f rest))
  else List.filter f rest = List.filter f l.
Proof.
  revert p rest. induction l as [|q l IH]; intros p rest H; simpl in H.
  - discriminate.
  - destruct (rid q =? id)%nat.
    + injection H as <- <-. simpl. destruct (f q); reflexivity.
    + destruct (take_pending id l) as [[p' rest']|]; [|discriminate].
      injection H as <- <-. specialize (IH p' rest' eq_refl).
      simpl. destruct (f p'), (f q); simpl; congruence.
Qed.

Lemma drawer_inv_deliver id r w : drawer_inv w → drawer_inv (deliver id r w).
Proof.
  intros [H1 H2]. unfold deliver.
  destruct (take_pending id (inflight (host w))) as [[p rest]|] eqn:E;
    [|by split].
  pose proof (take_pending_filter (λ p, is_refresh_cont (cont p)) _ _ _ _ E)
    as Hp. simpl in Hp.
  apply (drawer_inv_view
           (snd (snd (resume (cont p) r)
                   (with_host (host_set_inflight rest) w)))).
  { by rewrite drawer_view_run_async. }
  apply drawer_inv_resume. unfold drawer_inv, refreshes_in_flight in *.
  destruct (is_refresh_cont (cont p)).
  - simpl. destruct (List.filter _ rest); [done | simpl in *; lia].
  - simpl. rewrite Hp. by split.
Qed.

Lemma drawer_view_fire t w : drawer_view (fire t w) = drawer_view w.
Proof. unfold fire. destruct (task t); drawer_frame. Qed.

Lemma drawer_view_fire_all (l : list Timer) w :
  drawer_view (foldl (λ acc tm, fire tm acc) w l) = drawer_view w.
Proof.
  revert w. induction l as [|t l IH]; intros w; simpl; [done|].
  rewrite IH. apply drawer_view_fire.
Qed.

Lemma drawer_view_tick dt w : drawer_view (tick dt w) = drawer_view w.
Proof. unfold tick. rewrite drawer_view_fire_all. reflexivity. Qed.

(** No handler and no operation starts a refresh by itself: a refresh
    starts on a response only. *)
Lemma drawer_view_exec a w :
  is_respond a = false → drawer_view (exec a w) = drawer_view w.
Proof.
  intros Ha. destruct a; try discriminate;
    try apply drawer_view_tick; simpl; drawer_frame.
Qed.

Lemma drawer_inv_exec a w : drawer_inv w → drawer_inv (exec a w).
Proof.
  intros H. destruct (is_respond a) eqn:Ha.
  - destruct a; try discriminate. by apply drawer_inv_deliver.
  - apply (drawer_inv_view w); [|exact H].
    symmetry. by apply drawer_view_exec.
Qed.

Lemma drawer_inv_run tr w : drawer_inv w → drawer_inv (run tr w).
Proof.
  revert w. induction tr as [|a tr IH]; intros w H; [done|].
  apply IH. by apply drawer_inv_exec.
Qed.

Lemma drawer_inv_boot t0 els mini : drawer_inv (boot t0 els mini).
Proof. split; [apply Nat.le_0_l | reflexivity]. Qed.

End Refresh.

(** X9: the drawer never has two refreshes of its cart in flight.  On every
    page the scripts can reach, at most one GET /cart.js issued by
    [CartDrawer.updateCart] is pending, and none is while [isLoading] is
    false: an [updateCart] called during a refresh returns without
    fetching. *)
Theorem drawer_refresh_single_flight (t0 : Z) (els : list InputEl)
    (mini : bool) (tr : list Action) :
  let w := run tr (boot t0 els mini) in
  (length (refreshes_in_flight w) ≤ 1)%nat ∧
  (isLoading (cartDrawer w) = false → refreshes_in_flight w = []).
Proof. apply drawer_inv_run, drawer_inv_boot. Qed.

(** X10: a consequence of that guard.  When a quantity change of the
    drawer succeeds while the drawer is not loading, one GET /cart.js is
    issued and [isLoading] is set; a second change that succeeds before
    that refresh is answered issues nothing and returns at once. *)
Theorem second_success_starts_no_refresh (w : World) (body1 body2 : Parsed) :
  isLoading (cartDrawer w) = false →
  let w1 := snd (CartDrawer_updateCartItem_resume (HttpOk body1) w) in
  let w2 := snd (CartDrawer_updateCartItem_resume (HttpOk body2) w1) in
  issued_since w w1 = [cart_js] ∧
  isLoading (cartDrawer w1) = true ∧
  fst (CartDrawer_updateCartItem_resume (HttpOk body2) w1)
  = Normal (Returned VUndefined) ∧
  issued_since w1 w2 = [] ∧
  inflight (host w2) = inflight (host w1).
Proof.
  intros Hidle. unfold_scripts. unfold_m. simpl. rewrite Hidle. simpl.
  repeat split; by since.
Qed.

Lemma second_success_starts_no_refresh_witness :
  isLoading (cartDrawer demo_page) = false ∧
  issued_since demo_page
    (snd (CartDrawer_updateCartItem_resume (HttpOk (Json demo_cart))
            demo_page))
  = [cart_js].
Proof.
  split; [reflexivity |].
  exact (proj1 (second_success_starts_no_refresh demo_page
                  (Json demo_cart) (Json demo_cart) eq_refl)).
Defined.

(** ** Removing a line and adding a product through [cartUtils] *)

(** X11: [removeFromCart(line)] is [updateCartItem(line, 0)]: both issue
    the same single request, a change of the line to quantity 0, and for
    every response both return the same result object. *)
Theorem removeFromCart_is_updateCartItem_zero (w : World) (line : Z)
    (r : Response) :
  issued_since w (snd (cartUtils_removeFromCart line w))
  = [change_request line (Some 0)] ∧
  issued_since w (snd (cartUtils_updateCartItem line 0 w))
  = [change_request line (Some 0)] ∧
  fst (cartUtils_removeFromCart_resume r w)
  = fst (cartUtils_updateCartItem_resume r w).
Proof.
  split; [by since | split; [by since |]].
  destruct r as [m|[d|m]|s m]; reflexivity.
Qed.

(** X12: a valid [addToCart].  With a truthy variant id and a quantity of
    at least 1 (1 when the quantity is omitted), one POST /cart/add.js goes
    out with that id and quantity, with the selling plan only when it is
    truthy and the properties only when there are some, and nothing is
    dispatched yet.  On the OK response the result is
    [{success: true, data}], exactly one [cart:item-added] is dispatched
    with the data and the quantity, and one GET /cart.js refreshes the
    badge. *)
Theorem addToCart_success (w : World) (variantId : VariantId)
    (qty : option Z) (options : Options) (data : Cart) :
  truthy_vid variantId = true →
  1 ≤ default 1 qty →
  let w1 := exec (CU_addToCart variantId qty options) w in
  issued_since w w1
  = [{| endpoint := CartAddJs;
        body := AddBody variantId (default 1 qty)
                  (truthy_plan (opt_selling_plan options))
                  (nonempty_properties (opt_properties options)) |}] ∧
  events_since w w1 = [] ∧
  settled_since w w1 = [] ∧
  (∀ w',
     let res := cartUtils_addToCart_resume (default 1 qty)
                  (HttpOk (Json data)) w' in
     fst res = Normal (Returned (VResult (Success data))) ∧
     events_since w' (snd res) = [EvItemAdded data (default 1 qty)] ∧
     issued_since w' (snd res) = [cart_js]).
Proof.
  intros Hv Hq. simpl. unfold run_async, cartUtils_addToCart.
  unfold_scripts. unfold_m. rewrite Hv. simpl.
  destruct (Z.ltb_spec (default 1 qty) 1); [lia|]. simpl.
  repeat split; by since.
Qed.

Lemma addToCart_success_witness :
  truthy_vid (VidNum 4471) = true ∧
  1 ≤ default 1 None ∧
  issued_since demo_page
    (exec (CU_addToCart (VidNum 4471) None
             {| opt_selling_plan := Some 0; opt_properties := Some [] |})
          demo_page)
  = [{| endpoint := CartAddJs;
        body := AddBody (VidNum 4471) 1 None None |}].
Proof.
  assert (1 ≤ default 1 None) as Hq by discriminate.
  split; [reflexivity | split; [exact Hq |]].
  exact (proj1 (addToCart_success demo_page (VidNum 4471) None
                  {| opt_selling_plan := Some 0; opt_properties := Some [] |}
                  demo_cart eq_refl Hq)).
Defined.

(** ** The postal code field *)

Section ZipCode.

Implicit Types (text value : list Ascii.ascii) (f : ShippingForm).

Lemma digits_of_digits text : forallb is_digit (digits_of text) = true.
Proof.
  unfold digits_of. induction text as [|c text IH]; simpl; [done|].
  destruct (is_digit c) eqn:E; simpl; [by rewrite E|done].
Qed.

Lemma digits_of_id value : forallb is_digit value = true → digits_of value = value.
Proof. apply List.forallb_filter_id. Qed.

Lemma forallb_take {A} (p : A → bool) (l : list A) n :
  forallb p l = true → forallb p (take n l) = true.
Proof.
  revert n. induction l as [|x l IH]; intros [|n] H; simpl in *; try done.
  apply andb_prop in H as [-> H]. simpl. by apply IH.
Qed.

Lemma forallb_drop {A} (p : A → bool) (l : list A) n :
  forallb p l = true → forallb p (drop n l) = true.
Proof.
  revert n. induction l as [|x l IH]; intros [|n] H; simpl in *; try done.
  apply andb_prop in H as [_ H]. by apply IH.
Qed.

(** The digits of the formatted text are the first eight digits typed. *)
Lemma digits_of_formatZipCode text :
  digits_of (formatZipCode_value text) = take 8 (digits_of text).
Proof.
  unfold formatZipCode_value.
  pose proof (digits_of_digits text) as Hd.
  set (d := digits_of text) in *. clearbody d.
  destruct (Nat.ltb_spec 5 (length d)) as [Hlong | Hshort].
  - unfold digits_of. rewrite !List.filter_app. simpl.
    change (List.filter is_digit) with digits_of.
    rewrite !digits_of_id by (try apply forallb_take; try apply forallb_drop;
                               by try apply forallb_take).
    apply (take_take_drop d 5 3).
  - rewrite digits_of_id by done. symmetry. apply take_ge. lia.
Qed.

Lemma formatZipCode_value_idem text :
  formatZipCode_value (formatZipCode_value text) = formatZipCode_value text.
Proof.
  unfold formatZipCode_value at 1. rewrite digits_of_formatZipCode.
  unfold formatZipCode_value.
  set (d := digits_of text). rewrite length_take.
  destruct (Nat.ltb_spec 5 (length d)) as [Hlong | Hshort].
  - destruct (Nat.ltb_spec 5 (8 `min` length d)); [|lia].
    rewrite take_take. change (5 `min` 8)%nat with 5%nat.
    pose proof (take_drop_commute d 3 5) as E.
    change (5 + 3)%nat with 8%nat in E. rewrite <- E. by rewrite take_idemp.
  - destruct (Nat.ltb_spec 5 (8 `min` length d)); [lia|].
    apply take_ge. lia.
Qed.

Lemma formatZipCode_value_length text :
  (length (formatZipCode_value text) ≤ 9)%nat.
Proof.
  unfold formatZipCode_value. set (d := digits_of text).
  destruct (Nat.ltb_spec 5 (length d)).
  - rewrite !length_app, !length_take. cbn [length]. lia.
  - lia.
Qed.

End ZipCode.

(** X13: the postal code field.  After the [input] listener ran on what
    the shopper typed, the field holds at most 9 characters, whose digits
    are the first eight digits typed; the button is enabled exactly when at
    least eight digits were typed (digits past the eighth are dropped, not
    refused); the error is hidden; and running the listener again on the
    field's own text changes nothing. *)
Theorem zip_field_after_input (typed : list Ascii.ascii) (f : ShippingForm) :
  let f' := zip_input_listener typed f in
  (length (zip_value f') ≤ 9)%nat ∧
  digits_of (zip_value f') = take 8 (digits_of typed) ∧
  button_disabled f' = negb (8 <=? length (digits_of typed))%nat ∧
  button_valid f' = (8 <=? length (digits_of typed))%nat ∧
  error_visible f' = false ∧
  zip_input_listener (zip_value f') f' = f'.
Proof.
  assert ((length (take 8 (digits_of typed)) =? 8)%nat
          = (8 <=? length (digits_of typed))%nat) as Hlen.
  { rewrite length_take.
    destruct (Nat.leb_spec 8 (length (digits_of typed)));
      [apply Nat.eqb_eq | apply Nat.eqb_neq]; lia. }
  unfold zip_input_listener, CartSystem_validateZipCode,
    CartSystem_formatZipCode. simpl.
  rewrite formatZipCode_value_idem, digits_of_formatZipCode, Hlen.
  split; [apply formatZipCode_value_length |]. by repeat split.
Qed.

(** X14: the calculator accepts exactly what the field marked as valid.
    Called on the form the [input] listener left, [calculateShippingRates]
    starts the lookup if and only if the button is enabled; otherwise it
    shows the error about the 8 digits, hides the result and starts nothing.
    Once the lookup has answered, the three placeholder rates are listed
    and the button is enabled and no longer loading. *)
Theorem shipping_lookup_iff_button_enabled (typed : list Ascii.ascii)
    (f : ShippingForm) :
  let f' := zip_input_listener typed f in
  let started := CartSystem_calculateShippingRates f' in
  snd started = negb (button_disabled f') ∧
  (snd started = false →
     fst started = CartSystem_showShippingError "CEP deve ter 8 dígitos" f' ∧
     error_visible (fst started) = true ∧
     result_visible (fst started) = false) ∧
  (snd started = true →
     button_disabled (fst started) = true ∧
     button_loading (fst started) = true ∧
     error_visible (fst started) = false ∧
     let finished := CartSystem_calculateShippingRates_resume (fst started) in
     rates_shown finished = placeholder_rates ∧
     result_visible finished = true ∧
     button_disabled finished = false ∧
     button_loading finished = false ∧
     zip_value finished = zip_value f').
Proof.
  unfold zip_input_listener, CartSystem_validateZipCode,
    CartSystem_formatZipCode, CartSystem_calculateShippingRates in *. simpl.
  destruct (length (digits_of (formatZipCode_value typed)) =? 8)%nat;
    simpl; repeat split; intros; try done.
Qed.

(** ** The quantity selector of the product page *)

Section QuantitySelector.

Lemma quantity_listener_valid (e : QuantityEvent) (n : Z) :
  1 ≤ n →
  ∃ n', quantity_listener e (Some (Some n)) = Some (Some n') ∧ 1 ≤ n'.
Proof.
  intros Hn. destruct e; simpl; unfold js_or.
  - destruct (Z.eqb_spec n 0); [lia|].
    destruct (Z.ltb_spec 1 n); eexists; split; try reflexivity; lia.
  - destruct (Z.eqb_spec n 0); [lia|].
    eexists; split; [reflexivity | lia].
  - destruct (Z.ltb_spec n 1); [lia|]. eexists; split; [reflexivity | lia].
Qed.

End QuantitySelector.

(** X15: the quantity selector never leaves the valid range by itself.
    From a quantity of at least 1, any sequence of clicks on minus and plus
    and of change events leaves a quantity of at least 1 in the input;
    minus at 1 changes nothing. *)
Theorem quantity_selector_stays_valid (events : list QuantityEvent) (n : Z) :
  1 ≤ n →
  (∃ n', foldl (λ q e, quantity_listener e q) (Some (Some n)) events
         = Some (Some n') ∧ 1 ≤ n') ∧
  productUtils_decreaseQuantity (Some (Some 1)) = Some (Some 1).
Proof.
  intros Hn. split; [|reflexivity].
  revert n Hn. induction events as [|e events IH]; intros n Hn; simpl.
  - by exists n.
  - destruct (quantity_listener_valid e n Hn) as (n' & -> & Hn').
    by apply IH.
Qed.

Lemma quantity_selector_stays_valid_witness :
  1 ≤ 2 ∧
  ∃ n', foldl (λ q e, quantity_listener e q) (Some (Some 2))
          [ClickMinus; ClickMinus; ClickMinus; ClickPlus; InputChange]
        = Some (Some n') ∧ 1 ≤ n'.
Proof.
  assert (1 ≤ 2) as H by discriminate.
  split; [exact H |].
  exact (proj1 (quantity_selector_stays_valid
                  [ClickMinus; ClickMinus; ClickMinus; ClickPlus; InputChange]
                  2 H)).
Defined.

(** X16: what the buttons do with a value that is not valid.  An empty or
    unreadable field and a typed 0 both count as 1: plus then shows 2 and
    minus leaves the field as it is.  A typed negative quantity, down to
    -2^53, where the sum of the code is still exact, is left as it is by
    minus and raised by one by plus; only the change event puts 1 back, for
    an unreadable field and for any number below 1. *)
Theorem quantity_selector_on_invalid_values (n : Z) :
  - 2 ^ 53 ≤ n →
  n < 1 →
  productUtils_increaseQuantity (Some None) = Some (Some 2) ∧
  productUtils_increaseQuantity (Some (Some 0)) = Some (Some 2) ∧
  productUtils_decreaseQuantity (Some None) = Some None ∧
  productUtils_decreaseQuantity (Some (Some n)) = Some (Some n) ∧
  (n ≠ 0 → productUtils_increaseQuantity (Some (Some n)) = Some (Some (n + 1))) ∧
  productUtils_validateQuantity (Some None) = Some (Some 1) ∧
  productUtils_validateQuantity (Some (Some n)) = Some (Some 1).
Proof.
  intros _ Hn. repeat split; simpl; unfold js_or.
  - destruct (Z.eqb_spec n 0); [done|].
    destruct (Z.ltb_spec 1 n); [lia | done].
  - intros Hne. by destruct (Z.eqb_spec n 0).
  - by destruct (Z.ltb_spec n 1); [|lia].
Qed.

Lemma quantity_selector_on_invalid_values_witness :
  - 2 ^ 53 ≤ -3 ∧ -3 < 1 ∧
  productUtils_decreaseQuantity (Some (Some (-3))) = Some (Some (-3)) ∧
  productUtils_increaseQuantity (Some (Some (-3))) = Some (Some (-2)).
Proof.
  assert (- 2 ^ 53 ≤ -3) as Hlo by discriminate.
  assert (-3 < 1) as H by reflexivity.
  assert (-3 ≠ 0) as Hne by discriminate.
  pose proof (quantity_selector_on_invalid_values (-3) Hlo H) as Hq.
  split; [exact Hlo | split; [exact H |]].
  split; [exact (proj1 (proj2 (proj2 (proj2 Hq)))) |].
  exact (proj1 (proj2 (proj2 (proj2 (proj2 Hq)))) Hne).
Defined.

(** ** Recently viewed products *)

Section RecentlyViewed.

Implicit Types (l : list Viewed) (p : Viewed).

Lemma filter_others_id (i : Z) l :
  Forall (λ item, viewed_id item ≠ i)
         (List.filter (λ item, negb (viewed_id item =? i)) l).
Proof.
  induction l as [|x l IH]; simpl; [constructor|].
  destruct (Z.eqb_spec (viewed_id x) i); simpl; [done|].
  by constructor.
Qed.

Lemma filter_others_fixed (i : Z) l :
  Forall (λ item, viewed_id item ≠ i) l →
  List.filter (λ item, negb (viewed_id item =? i)) l = l.
Proof.
  induction 1 as [|x l Hx _ IH]; simpl; [done|].
  destruct (Z.eqb_spec (viewed_id x) i); [done|]. simpl. by rewrite IH.
Qed.

End RecentlyViewed.

(** X17: the list of recently viewed products.  Viewing a product while a
    variant is current puts the product first, keeps at most 10 entries,
    drops every older entry of the same product (its id occurs at the head
    only), and keeps the other entries in their order; viewing the same
    product again changes nothing.  Without a current variant the call
    throws and returns no list. *)
Theorem recently_viewed_list (product : Product) (v : Variant)
    (recentlyViewed : list Viewed) :
  productUtils_addToRecentlyViewed product None recentlyViewed
  = Throw (null_deref "price") ∧
  ∃ entry rest,
    productUtils_addToRecentlyViewed product (Some v) recentlyViewed
    = Normal (entry :: rest) ∧
    viewed_id entry = product_id product ∧
    viewed_price entry = variant_price v ∧
    (length (entry :: rest) ≤ 10)%nat ∧
    Forall (λ item, viewed_id item ≠ product_id product) rest ∧
    rest = take 9 (List.filter
                     (λ item, negb (viewed_id item =? product_id product))
                     recentlyViewed) ∧
    productUtils_addToRecentlyViewed product (Some v) (entry :: rest)
    = Normal (entry :: rest).
Proof.
  split; [reflexivity |].
  set (F := List.filter
              (λ item, negb (viewed_id item =? product_id product))
              recentlyViewed).
  assert (Forall (λ item, viewed_id item ≠ product_id product) (take 9 F))
    as Hrest by apply Forall_take, filter_others_id.
  exists {| viewed_id := product_id product;
            viewed_title := product_title product;
            viewed_handle := product_handle product;
            viewed_image := product_featured_image product;
            viewed_price := variant_price v;
            viewed_url := product_url product |}, (take 9 F).
  split; [reflexivity | split; [reflexivity | split; [reflexivity |]]].
  split; [cbn [length]; rewrite length_take; lia |].
  split; [exact Hrest | split; [reflexivity |]].
  unfold productUtils_addToRecentlyViewed. cbn [viewed_id List.filter].
  rewrite Z.eqb_refl. cbn [negb].
  rewrite (filter_others_fixed _ _ Hrest).
  change (take 10 (?x :: ?l)) with (x :: take 9 l). by rewrite take_idemp.
Qed.

(** ** The gallery index *)

(** X18: the gallery index stays on an existing medium.  From an index
    inside the gallery, any sequence of [navigateGallery] calls, with any
    directions, leaves an index inside the gallery; a step that would leave
    it (before the first medium, past the last one) changes nothing: the
    gallery does not wrap around. *)
Theorem gallery_index_in_range (mediaItems : nat) (directions : list Z)
    (galleryIndex : Z) :
  0 ≤ galleryIndex < Z.of_nat mediaItems →
  (let final := foldl (λ i d, productUtils_navigateGallery mediaItems d i)
                      galleryIndex directions in
   0 ≤ final < Z.of_nat mediaItems) ∧
  productUtils_navigateGallery mediaItems 1 (Z.of_nat mediaItems - 1)
  = Z.of_nat mediaItems - 1 ∧
  productUtils_navigateGallery mediaItems (-1) 0 = 0.
Proof.
  intros Hi. split; [| split].
  - revert galleryIndex Hi.
    induction directions as [|d ds IH]; intros i Hi; simpl; [done|].
    apply IH. unfold productUtils_navigateGallery.
    destruct (Z.leb_spec 0 (i + d)), (Z.ltb_spec (i + d) (Z.of_nat mediaItems));
      simpl; lia.
  - unfold productUtils_navigateGallery.
    destruct (Z.ltb_spec (Z.of_nat mediaItems - 1 + 1) (Z.of_nat mediaItems));
      [lia|]. by rewrite andb_false_r.
  - reflexivity.
Qed.

Lemma gallery_index_in_range_witness :
  0 ≤ 0 < Z.of_nat 3 ∧
  0 ≤ foldl (λ i d, productUtils_navigateGallery 3 d i) 0 [1; 1; 1; -1; 5]
    < Z.of_nat 3.
Proof.
  assert (0 ≤ 0 < Z.of_nat 3) as H by (split; [discriminate | reflexivity]).
  split; [exact H |].
  exact (proj1 (gallery_index_in_range 3 [1; 1; 1; -1; 5] 0 H)).
Defined.

(** ** Looking a variant up by the checked options *)

Section FindVariant.

Lemma find_first {A} (p : A → bool) (l : list A) (x : A) :
  List.find p l = Some x →
  ∃ before after, l = before ++ x :: after ∧ p x = true ∧
                  forallb (λ y, negb (p y)) before = true.
Proof.
  induction l as [|y l IH]; simpl; [discriminate|].
  destruct (p y) eqn:E.
  - intros [= ->]. by exists [], l.
  - intros H. destruct (IH H) as (before & after & -> & Hx & Hb).
    exists (y :: before), after. simpl. by rewrite E.
Qed.

Lemma find_none_if {A} (p : A → bool) (l : list A) :
  (∀ x, p x = false) → List.find p l = None.
Proof.
  intros H. induction l as [|y l IH]; simpl; [done|]. by rewrite H.
Qed.

Lemma forallb_false_witness {A} (p : A → bool) (l : list A) :
  forallb p l = false → ∃ x, x ∈ l ∧ p x = false.
Proof.
  induction l as [|y l IH]; simpl; [discriminate|].
  destruct (p y) eqn:E; simpl.
  - intros H. destruct (IH H) as (x & Hin & Hx). exists x. split; [by right|done].
  - intros _. exists y. split; [by left | done].
Qed.

End FindVariant.

(** X19: [findVariantByOptions].  The variant it returns carries every
    checked option at the position the input's name gives, and is the
    first such variant of the product.  With nothing checked it returns the
    first variant.  When the name of one checked input holds no number,
    no variant is returned, whatever the other options. *)
Theorem findVariantByOptions_result (variants : list Variant)
    (selectedOptions : list (option Z * string)) :
  (∀ found,
     productUtils_findVariantByOptions variants selectedOptions = Some found →
     (∀ n value, (Some n, value) ∈ selectedOptions →
                 js_index (variant_options found) (n - 1) = Some value) ∧
     ∃ before after,
       variants = before ++ found :: after ∧
       Forall (λ other, ∃ entry, entry ∈ selectedOptions ∧
                                 option_matches other entry = false) before) ∧
  productUtils_findVariantByOptions variants [] = head variants ∧
  (∀ value, (None, value) ∈ selectedOptions →
            productUtils_findVariantByOptions variants selectedOptions = None).
Proof.
  split; [| split].
  - intros found Hfound.
    apply find_first in Hfound as (before & after & -> & Hall & Hbefore).
    split.
    + intros n value Hin.
      rewrite forallb_forall in Hall. apply list_elem_of_In in Hin.
      specialize (Hall _ Hin). unfold option_matches in Hall. simpl in Hall.
      destruct (js_index (variant_options found) (n - 1)); [|done].
      apply String.eqb_eq in Hall. by subst.
    + exists before, after. split; [done|].
      apply Forall_forall. intros other Hother.
      rewrite forallb_forall in Hbefore. apply list_elem_of_In in Hother.
      specialize (Hbefore _ Hother). apply negb_true_iff in Hbefore.
      apply not_true_iff_false in Hbefore.
      rewrite forallb_forall in Hbefore.
      destruct (forallb (option_matches other) selectedOptions) eqn:E.
      * exfalso. apply Hbefore. by rewrite <- forallb_forall.
      * by apply forallb_false_witness.
  - by destruct variants.
  - intros value Hin. apply find_none_if. intros variant.
    apply not_true_iff_false. intros Hall.
    rewrite forallb_forall in Hall. apply list_elem_of_In in Hin.
    by specialize (Hall _ Hin).
Qed.
